(** * OPLAH-WSKT image link lists: a shallow embedding of the three scripts

    The repository holds three variants of one batch script:
    - [link-list.py]      (module [LinkList]):    fixed three-level rows, raw URLs;
    - [link-list-new.py]  (module [LinkListNew]): "D.I" marker search, blob URLs;
    - [link-list-v2.py]   (module [LinkListV2]):  numeric-prefix stripping, raw URLs.
    The [main] of [link-list-new.py] and of [link-list.py] are in the
    modules [LinkListNewRun] and [LinkListRun].

    Python strings are modelled as [string]: a character is a code point
    below 256, and the character classes below ([isspace], [isdigit],
    [lower]) are Python's on that range.  Python exceptions are modelled
    by the [result] type.  The file system and the [git] subprocess are
    inputs of the model (record [world]); console output is not modelled.
    The writes to [images.csv] are taken to succeed: what [open] and the
    csv writer may raise is outside the model, and a statement about a run
    is a statement about a run whose writes succeed. *)

From Stdlib Require Import String Ascii List ZArith Bool Lia.
Import ListNotations.
Open Scope list_scope.
Open Scope string_scope.

(** ** Python exceptions *)

(** The exceptions the scripts meet, all of them subclasses of
    [Exception]; [OtherError] stands for any other such class, by its
    name. *)
Inductive exn : Type :=
| IndexError
| ValueError
| CalledProcessError
| FileNotFoundError
| OtherError (name : string).

Inductive result (A : Type) : Type :=
| Ok (a : A)
| Raise (e : exn).

Arguments Ok {A} a.
Arguments Raise {A} e.

Definition bind {A B : Type} (c : result A) (k : A -> result B) : result B :=
  match c with
  | Ok a => k a
  | Raise e => Raise e
  end.

Notation "x <- c ;; k" := (bind c (fun x => k))
  (at level 61, c at next level, right associativity).

(** ** The Python built-ins the scripts use *)

Module Py.

(** [str.isspace] on one character. *)
Definition isspace (c : ascii) : bool :=
  let n := nat_of_ascii c in
  (((9 <=? n) && (n <=? 13)) || ((28 <=? n) && (n <=? 32))
   || (n =? 133) || (n =? 160))%nat.

(** [str.isdigit] on one character: the decimal digits and the
    superscripts one, two and three. *)
Definition isdigit (c : ascii) : bool :=
  let n := nat_of_ascii c in
  (((48 <=? n) && (n <=? 57)) || (n =? 178) || (n =? 179) || (n =? 185))%nat.

Definition lower_char (c : ascii) : ascii :=
  let n := nat_of_ascii c in
  if (((65 <=? n) && (n <=? 90))
      || ((192 <=? n) && (n <=? 222) && negb (n =? 215)))%nat
  then ascii_of_nat (n + 32) else c.

(** [s.lower()] *)
Fixpoint lower (s : string) : string :=
  match s with
  | "" => ""
  | String c s' => String (lower_char c) (lower s')
  end.

(** [s.startswith(p)] *)
Definition startswith (s p : string) : bool := prefix p s.

(** [sub in s] *)
Fixpoint contains (sub s : string) {struct s} : bool :=
  prefix sub s ||
  match s with
  | "" => false
  | String _ s' => contains sub s'
  end.

(** [s.find(sub)]: the lowest index of an occurrence, [-1] when there is none. *)
Fixpoint find (sub s : string) {struct s} : Z :=
  if prefix sub s then 0%Z
  else match s with
       | "" => (-1)%Z
       | String _ s' =>
           let r := find sub s' in
           if (r <? 0)%Z then (-1)%Z else (r + 1)%Z
       end.

(** [s.rfind(sub)]: the highest index of an occurrence, [-1] when there is none. *)
Fixpoint rfind (sub s : string) {struct s} : Z :=
  match s with
  | "" => if prefix sub "" then 0%Z else (-1)%Z
  | String _ s' =>
      let r := rfind sub s' in
      if (0 <=? r)%Z then (r + 1)%Z
      else if prefix sub s then 0%Z else (-1)%Z
  end.

Fixpoint drop (n : nat) (s : string) : string :=
  match n, s with
  | S k, String _ s' => drop k s'
  | _, _ => s
  end.

Fixpoint take (n : nat) (s : string) : string :=
  match n, s with
  | S k, String c s' => String c (take k s')
  | _, _ => ""
  end.

(** A slice bound, as Python normalises it: a negative index counts from
    the end, and the result is clamped to [0 .. len]. *)
Definition slice_index (len : nat) (i : Z) : nat :=
  if (i <? 0)%Z then Z.to_nat (Z.max 0 (Z.of_nat len + i))
  else Nat.min (Z.to_nat i) len.

(** [s[lo:hi]]; [None] stands for an omitted bound. *)
Definition slice (lo hi : option Z) (s : string) : string :=
  let len := String.length s in
  let l := match lo with Some i => slice_index len i | None => 0 end in
  let h := match hi with Some i => slice_index len i | None => len end in
  take (h - l) (drop l s).

(** [s[i]] for [0 <= i]; the scripts index with literals only. *)
Definition str_getitem (s : string) (i : nat) : result ascii :=
  match String.get i s with
  | Some c => Ok c
  | None => Raise IndexError
  end.

(** [l[i]] for [0 <= i]. *)
Definition getitem {A : Type} (l : list A) (i : nat) : result A :=
  match nth_error l i with
  | Some a => Ok a
  | None => Raise IndexError
  end.

(** [l[-1]] *)
Definition getlast {A : Type} (l : list A) : result A :=
  match rev l with
  | a :: _ => Ok a
  | [] => Raise IndexError
  end.

Fixpoint lstrip_by (p : ascii -> bool) (s : string) : string :=
  match s with
  | "" => ""
  | String c s' => if p c then lstrip_by p s' else s
  end.

Fixpoint rstrip_by (p : ascii -> bool) (s : string) : string :=
  match s with
  | "" => ""
  | String c s' =>
      match rstrip_by p s' with
      | "" => if p c then "" else String c ""
      | r => String c r
      end
  end.

(** [s.strip()] *)
Definition strip (s : string) : string :=
  rstrip_by isspace (lstrip_by isspace s).

Fixpoint char_in (c : ascii) (chars : string) : bool :=
  match chars with
  | "" => false
  | String d chars' => Ascii.eqb c d || char_in c chars'
  end.

(** [s.rstrip(chars)]: [chars] is a SET of characters, every trailing
    character that belongs to it is removed. *)
Definition rstrip (chars s : string) : string :=
  rstrip_by (fun c => char_in c chars) s.

Definition cons_head (c : ascii) (l : list string) : list string :=
  match l with
  | h :: t => String c h :: t
  | [] => [String c ""]
  end.

(** [s.split(sep, maxsplit)] for a non-empty [sep] (Python raises on an
    empty one; every separator in the scripts is a non-empty literal).
    [maxsplit = None] is Python's default [-1]: no limit.  [skip] counts
    the characters of a separator just matched that are still to be
    passed over. *)
Fixpoint split_go (sep : string) (maxsplit : option nat) (skip : nat)
    (s : string) {struct s} : list string :=
  match skip with
  | S k =>
      match s with
      | "" => [""]
      | String _ s' => split_go sep maxsplit k s'
      end
  | O =>
      match maxsplit with
      | Some O => [s]
      | _ =>
          match s with
          | "" => [""]
          | String c s' =>
              if prefix sep s
              then "" :: split_go sep (option_map Nat.pred maxsplit)
                           (String.length sep - 1) s'
              else cons_head c (split_go sep maxsplit 0 s')
          end
      end
  end.

Definition split (sep : string) (maxsplit : option nat) (s : string)
  : list string :=
  split_go sep maxsplit 0 s.

(** [sep.join(l)] *)
Definition join (sep : string) (l : list string) : string :=
  String.concat sep l.

(** [s.replace(old, new)] for a non-empty [old]. *)
Fixpoint replace_go (old new : string) (skip : nat) (s : string)
    {struct s} : string :=
  match s with
  | "" => ""
  | String c s' =>
      match skip with
      | S k => replace_go old new k s'
      | O =>
          if prefix old s
          then new ++ replace_go old new (String.length old - 1) s'
          else String c (replace_go old new 0 s')
      end
  end.

Definition replace (old new s : string) : string := replace_go old new 0 s.

(** The loop of [genericpath._splitext] that passes over leading dots:
    [fuel] is the number of indices from [filenameIndex] to [dotIndex];
    [true] when a character other than [extsep] is met. *)
Fixpoint splitext_scan (extsep : string) (p : string) (filenameIndex : Z)
    (fuel : nat) : bool :=
  match fuel with
  | O => false
  | S k =>
      if negb (String.eqb
                 (slice (Some filenameIndex) (Some (filenameIndex + 1)%Z) p)
                 extsep)
      then true
      else splitext_scan extsep p (filenameIndex + 1)%Z k
  end.

(** [os.path.splitext] of [posixpath]: [genericpath._splitext(p, '/', None, '.')]. *)
Definition splitext (p : string) : string * string :=
  let sepIndex := rfind "/" p in
  let dotIndex := rfind "." p in
  if (sepIndex <? dotIndex)%Z
     && splitext_scan "." p (sepIndex + 1)%Z
          (Z.to_nat (dotIndex - (sepIndex + 1)))
  then (slice None (Some dotIndex) p, slice (Some dotIndex) None p)
  else (p, slice None (Some 0%Z) p).

(** Python truthiness of a string: non-empty. *)
Definition truthy (s : string) : bool := negb (String.eqb s "").

End Py.

(** ** The world outside the scripts *)

(** What [subprocess.check_output] can do: give the output of the
    command, raise [CalledProcessError] when the command exits with a
    non-zero status, raise [FileNotFoundError] when the executable is
    not there, or raise anything else (a [PermissionError], a
    [UnicodeDecodeError] ...). *)
Inductive proc : Type :=
| Output (out : string)
| NonZeroExit
| NoExecutable
| Crashes (e : exn).

Definition check_output (p : proc) : result string :=
  match p with
  | Output out => Ok out
  | NonZeroExit => Raise CalledProcessError
  | NoExecutable => Raise FileNotFoundError
  | Crashes e => Raise e
  end.

(** The platform the script runs on: it fixes [os.sep]. *)
Inductive platform : Type :=
| Posix
| Windows.

Record world : Type := {
  (** [os.path.isdir] *)
  isdir : string -> bool;
  (** the result of [scan_current_directory()] *)
  scan_current_directory : list string;
  (** the result of [list_images(root)] *)
  list_images : string -> list string;
  (** [git config --get remote.origin.url] *)
  git_remote_origin_url : proc;
  (** [git rev-parse --abbrev-ref HEAD] *)
  git_abbrev_ref_head : proc
}.

(** ** Code shared by the three scripts *)

Module Common.

Definition ALLOWED_EXT : list string :=
  [".png"; ".jpg"; ".jpeg"; ".gif"; ".webp"; ".bmp"; ".tif"; ".tiff"; ".svg"].

Definition mem (s : string) (l : list string) : bool :=
  existsb (String.eqb s) l.

Definition is_image (filename : string) : bool :=
  let '(_, ext) := Py.splitext (Py.lower filename) in
  mem ext ALLOWED_EXT.

(** The part of [get_git_info] between the two subprocess calls: from
    the stripped remote URL to [(owner, repo)]. *)
Definition owner_repo_of_remote (remote : string) : result (string * string) :=
  if negb (Py.contains "github.com" remote) then Raise ValueError
  else if Py.startswith remote "https" then
    match Py.split "/" None (Py.rstrip ".git" remote) with
    | [_; _; _; owner; repo] => Ok (owner, repo)
    | _ => Raise ValueError
    end
  else
    match Py.split ":" None remote with
    | [_; owner_repo] =>
        match Py.split "/" None (Py.rstrip ".git" owner_repo) with
        | [owner; repo] => Ok (owner, repo)
        | _ => Raise ValueError
        end
    | _ => Raise ValueError
    end.

(** [get_git_info]: the [except] clause turns [CalledProcessError], and
    nothing else, into [ValueError]. *)
Definition get_git_info (w : world) : result (string * string * string) :=
  let body :=
    out <- check_output (git_remote_origin_url w) ;;
    let remote := Py.strip out in
    owner_repo <- owner_repo_of_remote remote ;;
    out' <- check_output (git_abbrev_ref_head w) ;;
    let branch := Py.strip out' in
    Ok (fst owner_repo, snd owner_repo, branch) in
  match body with
  | Raise CalledProcessError => Raise ValueError
  | r => r
  end.

Definition encode_path (path : string) : string :=
  let parts := Py.split "/" None path in
  let encoded_parts := map (fun part => Py.replace " " "%20" part) parts in
  Py.join "/" encoded_parts.

(** The f-string of the raw-content URL ([link-list.py], [link-list-v2.py]). *)
Definition make_github_url_raw (owner repo branch path : string) : string :=
  let encoded_path := encode_path path in
  String.concat ""
    ["https://raw.githubusercontent.com/"; owner; "/"; repo; "/refs/heads/";
     branch; "/"; encoded_path].

End Common.

(** ** [link-list.py] *)

Module LinkList.

(** The character of [os.sep]: ['/'] on POSIX, a backslash on Windows. *)
Definition os_sep_char (os : platform) : ascii :=
  match os with
  | Posix => "/"%char
  | Windows => ascii_of_nat 92
  end.

(** [os.sep] *)
Definition os_sep (os : platform) : string := String (os_sep_char os) "".

Definition make_github_url := Common.make_github_url_raw.

Definition row_from_path (os : platform) (path : string)
  : result (list string) :=
  let os_sep := os_sep os in
  let parts := Py.split os_sep None path in
  match parts with
  | [] => Ok [""; ""; ""; ""]
  | _ =>
      filename <- Py.getlast parts ;;
      let folders := removelast parts in
      folder0 <- (if (1 <=? length folders)%nat then Py.getitem folders 0
                  else Ok "") ;;
      folder1 <- (if (2 <=? length folders)%nat then Py.getitem folders 1
                  else Ok "") ;;
      let folder2 := if (3 <=? length folders)%nat
                     then Py.join os_sep (skipn 2 folders) else "" in
      Ok [folder0; folder1; folder2; filename]
  end.

End LinkList.

(** ** [link-list-new.py] *)

Module LinkListNew.

(** The f-string of the blob-view URL. *)
Definition make_github_url (owner repo branch path : string) : string :=
  let encoded_path := Common.encode_path path in
  String.concat ""
    ["https://github.com/"; owner; "/"; repo; "/blob/"; branch; "/";
     encoded_path].

(** The sub-unit column: the ["D.I"] marker search on [parts[2]]. *)
Definition di_name_of (parts : list string) : result string :=
  if (2 <? length parts)%nat then
    folder_name <- Py.getitem parts 2 ;;
    if Py.contains "D.I" folder_name then
      let di_start := Py.find "D.I" folder_name in
      first <- Py.getitem
                 (Py.split "/" None (Py.slice (Some di_start) None folder_name))
                 0 ;;
      Ok (Py.strip first)
    else Ok ""
  else Ok "".

Definition row_from_path (path : string) : result (list string) :=
  let parts := Py.split "/" None path in
  match parts with
  | [] => Ok [""; ""; ""; ""]
  | _ =>
      project_name <- (if (0 <? length parts)%nat then Py.getitem parts 0
                       else Ok "") ;;
      period <- (if (1 <? length parts)%nat then Py.getitem parts 1 else Ok "") ;;
      di_name <- di_name_of parts ;;
      let image_path := ("./" ++ path)%string in
      Ok [project_name; period; di_name; image_path]
  end.

End LinkListNew.

(** ** [link-list-v2.py] *)

Module LinkListV2.

Definition make_github_url := Common.make_github_url_raw.

Definition clean_folder_name (name : string) : result string :=
  numbered <- (if Py.contains ". " name
               then c <- Py.str_getitem name 0 ;; Ok (Py.isdigit c)
               else Ok false) ;;
  if numbered : bool then Py.getitem (Py.split ". " (Some 1) name) 1
  else Ok name.

Definition parse_path_info (path : string)
  : result (string * string * string * string) :=
  let parts := Py.split "/" None path in
  first <- Py.getitem parts 0 ;;
  let parts := if String.eqb first "." then skipn 1 parts else parts in
  if (length parts =? 2)%nat then
    match parts with
    | [nama_proyek; nama_gambar] => Ok (nama_proyek, "", "", path)
    | _ => Raise ValueError
    end
  else if (length parts =? 3)%nat then
    match parts with
    | [nama_proyek; periode; nama_gambar] => Ok (nama_proyek, periode, "", path)
    | _ => Raise ValueError
    end
  else
    nama_proyek <- Py.getitem parts 0 ;;
    periode <- Py.getitem parts 1 ;;
    di_folder <- Py.getitem parts 2 ;;
    nama_di <- clean_folder_name di_folder ;;
    Ok (nama_proyek, periode, nama_di, path).

Definition header : list string :=
  ["nama_proyek"; "periode"; "nama_di"; "nama_gambar"; "url"].

(** The f-string ["./{folder}/{f}"]. *)
Definition dot_path (folder f : string) : string :=
  String.concat "" ["./"; folder; "/"; f].

(** The files [main] collects: either an early [return] with its exit
    code, or the list of paths. *)
Definition collect_files (w : world) (argv : list string)
  : Z + list string :=
  match argv with
  | [] =>
      let folders := scan_current_directory w in
      match folders with
      | [] => inl 1%Z
      | _ =>
          inr (flat_map
                 (fun folder =>
                    if negb (isdir w folder) then []
                    else map (dot_path folder) (list_images w folder))
                 folders)
      end
  | folder_path :: _ =>
      if negb (isdir w folder_path) then inl 2%Z
      else inr (map (dot_path folder_path) (list_images w folder_path))
  end.

(** [try: owner, repo, branch = get_git_info() except ValueError: owner =
    repo = branch = None]. *)
Definition resolve_remote (w : world)
  : result (option (string * string * string)) :=
  match Common.get_git_info w with
  | Ok info => Ok (Some info)
  | Raise ValueError => Ok None
  | Raise e => Raise e
  end.

(** One turn of the loop that writes the rows. *)
Definition row_of (remote : option (string * string * string))
    (path : string) : result (list string) :=
  info <- parse_path_info path ;;
  let '(nama_proyek, periode, nama_di, nama_gambar) := info in
  let url :=
    match remote with
    | Some (owner, repo, branch) =>
        if Py.truthy owner && Py.truthy repo && Py.truthy branch
        then make_github_url owner repo branch path
        else ""
    | None => ""
    end in
  Ok [nama_proyek; periode; nama_di; nama_gambar; url].

Fixpoint write_rows (remote : option (string * string * string))
    (files : list string) : result (list (list string)) :=
  match files with
  | [] => Ok []
  | path :: rest =>
      r <- row_of remote path ;;
      rs <- write_rows remote rest ;;
      Ok (r :: rs)
  end.

(** What a run that returns leaves behind: its exit code and, when
    [images.csv] was written, its rows (header first). *)
Record outcome : Type := Exit {
  exit_code : Z;
  csv : option (list (list string))
}.

(** [argv] is the argument list once [sys.argv[1:]] has stood in for a
    missing one.  The writes are taken to succeed: an exception of [open]
    or of the csv writer, which the source lets out of [main] (the block
    that writes stands in no [try]), is outside the model. *)
Definition main (w : world) (argv : list string) : result outcome :=
  match collect_files w argv with
  | inl code => Ok (Exit code None)
  | inr files =>
      remote <- resolve_remote w ;;
      match files with
      | [] => Ok (Exit 0%Z None)
      | _ =>
          rows <- write_rows remote files ;;
          Ok (Exit 0%Z (Some (header :: rows)))
      end
  end.

End LinkListV2.

(** ** The runs of [link-list-new.py] and [link-list.py] *)

(** [main] of [link-list-new.py].  Its paths carry no ["./"]; the
    resolution of the remote and the writing of the rows stand inside one
    [try] whose [except Exception] returns 3.  The writes are taken to
    succeed: an exception of [open] or of the csv writer, on which the
    source returns 3 too, is outside the model. *)
Module LinkListNewRun.

Definition header : list string :=
  ["nama_proyek"; "periode"; "nama_di"; "nama_gambar"; "url"].

(** The f-string ["{folder}/{f}"]. *)
Definition slash_path (folder f : string) : string :=
  String.concat "" [folder; "/"; f].

Definition collect_files (w : world) (argv : list string)
  : Z + list string :=
  match argv with
  | [] =>
      let folders := scan_current_directory w in
      match folders with
      | [] => inl 1%Z
      | _ =>
          inr (flat_map
                 (fun folder =>
                    if negb (isdir w folder) then []
                    else map (slash_path folder) (list_images w folder))
                 folders)
      end
  | folder_path :: _ =>
      if negb (isdir w folder_path) then inl 2%Z
      else inr (map (slash_path folder_path) (list_images w folder_path))
  end.

Definition resolve_remote (w : world)
  : result (option (string * string * string)) :=
  match Common.get_git_info w with
  | Ok info => Ok (Some info)
  | Raise ValueError => Ok None
  | Raise e => Raise e
  end.

(** One turn of the loop; unpacking the row into four names raises
    [ValueError] on a row of another length. *)
Definition row_of (remote : option (string * string * string))
    (pth : string) : result (list string) :=
  row <- LinkListNew.row_from_path pth ;;
  match row with
  | [project_name; period; di_name; image_path] =>
      let url :=
        match remote with
        | Some (owner, repo, branch) =>
            if Py.truthy owner && Py.truthy repo && Py.truthy branch
            then LinkListNew.make_github_url owner repo branch pth
            else ""
        | None => ""
        end in
      Ok [project_name; period; di_name; image_path; url]
  | _ => Raise ValueError
  end.

(** The loop: the rows written, and the exception that stopped it, if
    any. *)
Fixpoint write_rows (remote : option (string * string * string))
    (files : list string) : list (list string) * option exn :=
  match files with
  | [] => ([], None)
  | pth :: rest =>
      match row_of remote pth with
      | Ok r =>
          let '(rs, e) := write_rows remote rest in (r :: rs, e)
      | Raise e => ([], Some e)
      end
  end.

Definition main (w : world) (argv : list string) : LinkListV2.outcome :=
  match collect_files w argv with
  | inl code => LinkListV2.Exit code None
  | inr files =>
      match resolve_remote w with
      | Raise _ => LinkListV2.Exit 3%Z None
      | Ok remote =>
          match files with
          | [] => LinkListV2.Exit 0%Z None
          | _ =>
              let '(rows, e) := write_rows remote files in
              LinkListV2.Exit
                (match e with None => 0%Z | Some _ => 3%Z end)
                (Some (header :: rows))
          end
      end
  end.

End LinkListNewRun.

(** [main] of [link-list.py].  The scan root is encoded before it is put
    in front of every path; only the resolution of the remote and the
    scan stand inside the [try] whose [except Exception] returns 3.  The
    scan and the writes are taken to succeed: an exception of the scan, on
    which the source returns 3, and an exception of [open] or of the csv
    writer, which the source lets out of [main], are outside the
    model. *)
Module LinkListRun.

Definition header : list string :=
  ["folder"; "subfolder"; "subfolder"; "nama gambar"; "url"].

(** The f-string ["{encoded_root}/{f}"]. *)
Definition rooted (encoded_root f : string) : string :=
  String.concat "" [encoded_root; "/"; f].

Definition resolve_remote (w : world)
  : result (option (string * string * string)) :=
  match Common.get_git_info w with
  | Ok info => Ok (Some info)
  | Raise ValueError => Ok None
  | Raise e => Raise e
  end.

(** One turn of the loop: [row.append(url)]. *)
Definition row_of (os : platform)
    (remote : option (string * string * string))
    (pth : string) : result (list string) :=
  row <- LinkList.row_from_path os pth ;;
  let url :=
    match remote with
    | Some (owner, repo, branch) =>
        if Py.truthy owner && Py.truthy repo && Py.truthy branch
        then LinkList.make_github_url owner repo branch pth
        else ""
    | None => ""
    end in
  Ok (row ++ [url])%list.

Fixpoint write_rows (os : platform)
    (remote : option (string * string * string))
    (files : list string) : result (list (list string)) :=
  match files with
  | [] => Ok []
  | pth :: rest =>
      r <- row_of os remote pth ;;
      rs <- write_rows os remote rest ;;
      Ok (r :: rs)
  end.

Definition main (os : platform) (w : world) (argv : list string)
  : result LinkListV2.outcome :=
  match argv with
  | [] => Ok (LinkListV2.Exit 1%Z None)
  | folder_path :: _ =>
      if negb (isdir w folder_path) then Ok (LinkListV2.Exit 2%Z None)
      else
        match resolve_remote w with
        | Raise _ => Ok (LinkListV2.Exit 3%Z None)
        | Ok remote =>
            let encoded_root := Py.replace " " "%20" folder_path in
            let files :=
              map (rooted encoded_root) (list_images w folder_path) in
            match files with
            | [] => Ok (LinkListV2.Exit 0%Z None)
            | _ =>
                rows <- write_rows os remote files ;;
                Ok (LinkListV2.Exit 0%Z (Some (header :: rows)))
            end
        end
  end.

End LinkListRun.

(** ** Vocabulary of the properties *)

(** [sub] occurs in [s]. *)
Definition occurs (sub s : string) : Prop :=
  exists p r, s = p ++ sub ++ r.

(** [s = p ++ sub ++ r], and no occurrence of [sub] in [s] starts before
    this one. *)
Definition first_occurrence (sub s p r : string) : Prop :=
  s = p ++ sub ++ r /\
  forall p' r', s = p' ++ sub ++ r' -> String.length p <= String.length p'.

Definition starts_with_digit (s : string) : Prop :=
  exists c s', s = String c s' /\ Py.isdigit c = true.

Fixpoint all_chars (p : ascii -> bool) (s : string) : bool :=
  match s with
  | "" => true
  | String c s' => p c && all_chars p s'
  end.

(** [t] is [x] without its leading and trailing whitespace. *)
Definition trimmed (x t : string) : Prop :=
  (exists w1 w2, x = w1 ++ t ++ w2 /\
                 all_chars Py.isspace w1 = true /\
                 all_chars Py.isspace w2 = true) /\
  (forall c t', t = String c t' -> Py.isspace c = false) /\
  (forall t' c, t = t' ++ String c "" -> Py.isspace c = false).

(** The path as the specification counts its segments: without a leading
    ["./"]. *)
Definition without_marker (path : string) : string :=
  if Py.startswith path "./" then Py.drop 2 path else path.

Definition segments (path : string) : list string :=
  Py.split "/" None path.

(** The parts [row_from_path] of [link-list.py] works on: the path cut
    at [os.sep]. *)
Definition os_segments (os : platform) (path : string) : list string :=
  Py.split (LinkList.os_sep os) None path.

(** The parts [parse_path_info] works on, once it has dropped a leading
    ["."] part. *)
Definition effective_parts (path : string) : list string :=
  match segments path with
  | h :: t => if String.eqb h "." then t else h :: t
  | [] => []
  end.

Definition newline : string := String (ascii_of_nat 10) "".

(** A world with one scan root ["Proj"] that holds one image, in a clone
    of [github.com/o/r] on branch [main]. *)
Definition proj_world : world := {|
  isdir := fun p => String.eqb p "Proj";
  scan_current_directory := [];
  list_images := fun root =>
    if String.eqb root "Proj" then ["M3/1. D.I Foo/img.png"] else [];
  git_remote_origin_url := Output ("https://github.com/o/r.git" ++ newline);
  git_abbrev_ref_head := Output ("main" ++ newline)
|}.

(** The same tree on a machine without [git]. *)
Definition proj_world_without_git : world := {|
  isdir := isdir proj_world;
  scan_current_directory := [];
  list_images := list_images proj_world;
  git_remote_origin_url := NoExecutable;
  git_abbrev_ref_head := NoExecutable
|}.

(** The same tree outside any repository: [git config] exits with a
    non-zero status. *)
Definition proj_world_no_repository : world := {|
  isdir := isdir proj_world;
  scan_current_directory := [];
  list_images := list_images proj_world;
  git_remote_origin_url := NonZeroExit;
  git_abbrev_ref_head := NonZeroExit
|}.

(** A path as [main] of [link-list-v2.py] builds it. *)
Definition is_dot_path (path : string) : Prop :=
  exists folder f, path = LinkListV2.dot_path folder f.

(** The row [main] writes for [path] when no remote was resolved. *)
Definition row_without_url (path : string) (row : list string) : Prop :=
  exists a b d,
    LinkListV2.parse_path_info path = Ok (a, b, d, path) /\
    row = [a; b; d; path; ""].

(** [s] is made of dots only (the empty string included). *)
Definition only_dots (s : string) : bool :=
  all_chars (fun c => Ascii.eqb c ".") s.

(** The extensions of the Extension Classifier, without their dot. *)
Definition image_extensions : list string :=
  ["png"; "jpg"; "jpeg"; "gif"; "webp"; "bmp"; "tif"; "tiff"; "svg"].

(** * Properties *)

(** ** Strings *)

Section StringFacts.

Lemma append_assoc (a b c : string) : (a ++ b) ++ c = a ++ (b ++ c).
Proof.
  induction a as [|x a IH]; simpl; [reflexivity|].
  now rewrite IH.
Qed.

Lemma append_nil_r (a : string) : a ++ "" = a.
Proof.
  induction a as [|x a IH]; simpl; [reflexivity|].
  now rewrite IH.
Qed.

Lemma append_length (a b : string) :
  String.length (a ++ b) = String.length a + String.length b.
Proof.
  induction a as [|x a IH]; simpl; [reflexivity|].
  now rewrite IH.
Qed.

Lemma prefix_nil (s : string) : prefix "" s = true.
Proof. now destruct s. Qed.

Lemma prefix_cons (a b : ascii) (s t : string) :
  prefix (String a s) (String b t) = Ascii.eqb a b && prefix s t.
Proof.
  simpl. destruct (ascii_dec a b) as [->|n].
  - now rewrite Ascii.eqb_refl.
  - apply Ascii.eqb_neq in n. now rewrite n.
Qed.

Lemma prefix_char (a b : ascii) (t : string) :
  prefix (String a "") (String b t) = Ascii.eqb a b.
Proof. now rewrite prefix_cons, prefix_nil, andb_true_r. Qed.

Lemma prefix_app (a r : string) : prefix a (a ++ r) = true.
Proof.
  induction a as [|x a IH]; simpl.
  - apply prefix_nil.
  - destruct (ascii_dec x x); [exact IH | congruence].
Qed.

Lemma prefix_inv (a s : string) :
  prefix a s = true -> exists r, s = a ++ r.
Proof.
  revert s. induction a as [|x a IH]; intros s H.
  - now exists s.
  - destruct s as [|y s]; [discriminate|].
    rewrite prefix_cons in H. apply andb_true_iff in H as [Hxy H].
    apply Ascii.eqb_eq in Hxy. subst y.
    destruct (IH _ H) as [r ->]. now exists r.
Qed.

End StringFacts.

(** ** [split] never returns the empty list *)

Section SplitFacts.

Lemma cons_head_not_nil (c : ascii) (l : list string) :
  Py.cons_head c l <> [].
Proof. now destruct l. Qed.

Lemma split_go_not_nil (sep : string) (s : string) :
  forall maxsplit skip, Py.split_go sep maxsplit skip s <> [].
Proof.
  induction s as [|c s IH]; intros maxsplit skip.
  - destruct skip; simpl; [destruct maxsplit as [[|n]|]|]; discriminate.
  - destruct skip as [|k]; cbn [Py.split_go].
    + destruct maxsplit as [[|n]|]; try discriminate;
        (destruct (prefix sep (String c s));
         [discriminate | apply cons_head_not_nil]).
    + apply IH.
Qed.

Lemma split_not_nil (sep : string) (maxsplit : option nat) (s : string) :
  Py.split sep maxsplit s <> [].
Proof. apply split_go_not_nil. Qed.

(** One step of [split] on a one-character separator. *)
Lemma split_char_cons (d c : ascii) (s : string) :
  Py.split (String d "") None (String c s) =
  if Ascii.eqb d c then "" :: Py.split (String d "") None s
  else Py.cons_head c (Py.split (String d "") None s).
Proof.
  unfold Py.split. cbn [Py.split_go].
  rewrite prefix_char. reflexivity.
Qed.

Lemma split_char_nil (d : ascii) : Py.split (String d "") None "" = [""].
Proof. reflexivity. Qed.

End SplitFacts.

(** ** The URL Builder *)

Section UrlBuilder.

Lemma replace_space_cons (c : ascii) (s : string) :
  Py.replace " " "%20" (String c s) =
  (if Ascii.eqb c " " then "%20" else String c "") ++ Py.replace " " "%20" s.
Proof.
  unfold Py.replace. cbn [Py.replace_go].
  rewrite prefix_char, Ascii.eqb_sym.
  destruct (Ascii.eqb c " "); reflexivity.
Qed.

Lemma join_cons2 (sep x y : string) (l : list string) :
  Py.join sep (x :: y :: l) = x ++ sep ++ Py.join sep (y :: l).
Proof. reflexivity. Qed.

Lemma join_map_cons_head (sep : string) (f : string -> string)
    (c : ascii) (pre : string) (l : list string) :
  l <> [] ->
  (forall h, f (String c h) = pre ++ f h) ->
  Py.join sep (map f (Py.cons_head c l)) = pre ++ Py.join sep (map f l).
Proof.
  intros Hl Hf. destruct l as [|h t]; [congruence|].
  cbn [Py.cons_head map]. destruct (map f t) as [|y t'] eqn:E.
  - cbn. apply Hf.
  - rewrite !join_cons2, Hf. apply append_assoc.
Qed.

Lemma encode_path_cons (c : ascii) (path : string) :
  Common.encode_path (String c path) =
  (if Ascii.eqb c " " then "%20" else String c "") ++ Common.encode_path path.
Proof.
  unfold Common.encode_path. rewrite split_char_cons.
  destruct (Ascii.eqb "/" c) eqn:E.
  - apply Ascii.eqb_eq in E. subst c. cbn [Ascii.eqb map].
    pose proof (split_not_nil "/" None path) as Hne.
    destruct (Py.split "/" None path) as [|h t]; [congruence|].
    reflexivity.
  - apply join_map_cons_head.
    + apply split_not_nil.
    + intros h. apply replace_space_cons.
Qed.

End UrlBuilder.

(** C5. [encode_path] is [split] on ['/'], [replace(' ', '%20')] on every
    part and [join] with ['/']; it changes nothing else: character by
    character, a space becomes ["%20"] and any other character (['#'],
    ['?'], ['%'], ['/'] ...) is kept.  The raw-shape URL builder returns
    the fixed prefix, owner, repo, ["/refs/heads/"], branch and the encoded
    path, as in the example of the specification. *)
Theorem encode_path_and_raw_url_spec :
  (forall path,
      Common.encode_path path =
      Py.join "/" (map (Py.replace " " "%20") (Py.split "/" None path))) /\
  Common.encode_path "" = "" /\
  (forall c path,
      Common.encode_path (String c path) =
      (if Ascii.eqb c " " then "%20" else String c "")
        ++ Common.encode_path path) /\
  Common.encode_path "a#b?c%d" = "a#b?c%d" /\
  (forall owner repo branch path,
      LinkList.make_github_url owner repo branch path =
      "https://raw.githubusercontent.com/" ++ owner ++ "/" ++ repo
        ++ "/refs/heads/" ++ branch ++ "/" ++ Common.encode_path path) /\
  LinkList.make_github_url "o" "r" "main" "a b/c.png" =
  "https://raw.githubusercontent.com/o/r/refs/heads/main/a%20b/c.png".
Proof.
  repeat split.
  - intros c path. apply encode_path_cons.
Qed.

(** ** The remote URL *)

(** C8. [rstrip(".git")] removes every trailing character among ['.'],
    ['g'], ['i'] and ['t'], not the suffix [".git"]: a repository name that
    ends in such characters loses them, with or without the suffix, in
    both URL shapes. *)
Theorem owner_repo_of_remote_digit :
  Common.owner_repo_of_remote "https://github.com/owner/digit.git"
    = Ok ("owner", "d") /\
  Common.owner_repo_of_remote "https://github.com/owner/digit"
    = Ok ("owner", "d") /\
  Common.owner_repo_of_remote "git@github.com:owner/digit.git"
    = Ok ("owner", "d") /\
  Common.owner_repo_of_remote "git@github.com:owner/digit"
    = Ok ("owner", "d") /\
  Common.owner_repo_of_remote "https://github.com/owner/repo.git"
    = Ok ("owner", "repo").
Proof. repeat split. Qed.

(** ** Occurrences of a substring: [in], [find] and [split] with a bound *)

Section Occurrences.

Lemma contains_unfold (sub s : string) :
  Py.contains sub s =
  prefix sub s || match s with
                  | "" => false
                  | String _ s' => Py.contains sub s'
                  end.
Proof. now destruct s. Qed.

Lemma find_unfold (sub s : string) :
  Py.find sub s =
  if prefix sub s then 0%Z
  else match s with
       | "" => (-1)%Z
       | String _ s' =>
           let r := Py.find sub s' in
           if (r <? 0)%Z then (-1)%Z else (r + 1)%Z
       end.
Proof. now destruct s. Qed.

Lemma occurs_contains (sub s : string) :
  occurs sub s -> Py.contains sub s = true.
Proof.
  intros (p & r & ->). induction p as [|c p IH].
  - rewrite contains_unfold. cbn [append]. now rewrite prefix_app.
  - rewrite contains_unfold. cbn [append]. rewrite IH. apply orb_true_r.
Qed.

Lemma contains_occurs (sub s : string) :
  Py.contains sub s = true -> occurs sub s.
Proof.
  induction s as [|c s IH]; rewrite contains_unfold; intros H;
    apply orb_true_iff in H as [H|H]; try discriminate.
  - apply prefix_inv in H as [r Hr]. now exists "", r.
  - apply prefix_inv in H as [r Hr]. now exists "", r.
  - destruct (IH H) as (p & r & ->). now exists (String c p), r.
Qed.

Lemma first_occurrence_here (sub s : string) :
  prefix sub s = true -> exists r, first_occurrence sub s "" r.
Proof.
  intros H. apply prefix_inv in H as [r ->]. exists r. split.
  - reflexivity.
  - intros. cbn. lia.
Qed.

Lemma first_occurrence_later (sub s p r : string) (c : ascii) :
  prefix sub (String c s) = false ->
  first_occurrence sub s p r ->
  first_occurrence sub (String c s) (String c p) r.
Proof.
  intros Hpre [-> Hmin]. split; [reflexivity|].
  intros p' r' E. destruct p' as [|c' p'].
  - cbn [append] in E. rewrite E, prefix_app in Hpre. discriminate.
  - cbn [append] in E. injection E as _ E. cbn. apply le_n_S. eauto.
Qed.

Lemma first_occurrence_tail (sub s p r : string) (c : ascii) :
  first_occurrence sub (String c s) (String c p) r ->
  prefix sub (String c s) = false /\ first_occurrence sub s p r.
Proof.
  intros [E Hmin]. split.
  - destruct (prefix sub (String c s)) eqn:Hpre; [|reflexivity].
    apply prefix_inv in Hpre as [r' Hr'].
    specialize (Hmin "" r' Hr'). cbn in Hmin. lia.
  - cbn [append] in E. injection E as E. split; [exact E|].
    intros p' r' E'. specialize (Hmin (String c p') r').
    cbn in Hmin. rewrite E' in Hmin. specialize (Hmin eq_refl). lia.
Qed.

(** [find] returns the index of the first occurrence. *)
Lemma find_first_occurrence (sub s : string) :
  Py.contains sub s = true ->
  exists p r, first_occurrence sub s p r /\
              Py.find sub s = Z.of_nat (String.length p).
Proof.
  induction s as [|c s IH]; rewrite contains_unfold, find_unfold;
    destruct (prefix sub _) eqn:Hpre; cbn [orb]; intros H;
    try discriminate.
  - destruct (first_occurrence_here _ _ Hpre) as [r Hr]. now exists "", r.
  - destruct (first_occurrence_here _ _ Hpre) as [r Hr]. now exists "", r.
  - destruct (IH H) as (p & r & Hfirst & Hfind).
    exists (String c p), r. split.
    + now apply first_occurrence_later.
    + cbv zeta. rewrite Hfind.
      destruct (Z.ltb_spec (Z.of_nat (String.length p)) 0); cbn [String.length]; lia.
Qed.

Lemma split_go_skip (sep a r : string) (m : option nat) :
  Py.split_go sep m (String.length a) (a ++ r) = Py.split_go sep m 0 r.
Proof.
  induction a as [|c a IH]; [reflexivity|].
  cbn [String.length append Py.split_go]. exact IH.
Qed.

Lemma split_go_exhausted (sep r : string) :
  Py.split_go sep (Some 0) 0 r = [r].
Proof. now destruct r. Qed.

(** [s.split(sep, 1)] cuts [s] at the first occurrence of [sep]. *)
Lemma split_once (sep s p r : string) :
  sep <> "" ->
  first_occurrence sep s p r ->
  Py.split sep (Some 1) s = [p; r].
Proof.
  intros Hsep. unfold Py.split. revert s.
  induction p as [|c p IH]; intros s Hfirst.
  - destruct Hfirst as [-> _]. destruct sep as [|d sep]; [congruence|].
    cbn [append]. cbn [Py.split_go].
    change (String d (sep ++ r)) with (String d sep ++ r).
    rewrite prefix_app. cbn [option_map Nat.pred].
    replace (String.length (String d sep) - 1) with (String.length sep)
      by (cbn [String.length]; lia).
    rewrite split_go_skip, split_go_exhausted. reflexivity.
  - pose proof Hfirst as [E _]. cbn [append] in E. subst s.
    apply first_occurrence_tail in Hfirst as [Hpre Hfirst].
    cbn [Py.split_go]. rewrite Hpre, (IH _ Hfirst). reflexivity.
Qed.

End Occurrences.

(** ** Numeric-prefix stripping *)

Section CleanFolderName.

Lemma clean_folder_name_numbered (s : string) :
  starts_with_digit s -> occurs ". " s ->
  exists p r, first_occurrence ". " s p r /\
              LinkListV2.clean_folder_name s = Ok r.
Proof.
  intros (c & s' & -> & Hdigit) Hocc.
  pose proof (occurs_contains _ _ Hocc) as Hin.
  destruct (find_first_occurrence _ _ Hin) as (p & r & Hfirst & _).
  exists p, r. split; [exact Hfirst|].
  unfold LinkListV2.clean_folder_name. rewrite Hin.
  cbn [Py.str_getitem String.get bind]. rewrite Hdigit.
  rewrite (split_once ". " _ p r); [reflexivity|discriminate|exact Hfirst].
Qed.

Lemma clean_folder_name_plain (s : string) :
  ~ (starts_with_digit s /\ occurs ". " s) ->
  LinkListV2.clean_folder_name s = Ok s.
Proof.
  intros Hnot. unfold LinkListV2.clean_folder_name.
  destruct (Py.contains ". " s) eqn:Hin; [|reflexivity].
  destruct s as [|c s']; [discriminate|].
  cbn [Py.str_getitem String.get bind].
  destruct (Py.isdigit c) eqn:Hdigit; [|reflexivity].
  exfalso. apply Hnot. split.
  - now exists c, s'.
  - now apply contains_occurs.
Qed.

(** [clean_folder_name] never raises: [name[0]] is guarded by the test
    for [". "], and [split('. ', 1)[1]] by the same test. *)
Lemma clean_folder_name_total (s : string) :
  exists r, LinkListV2.clean_folder_name s = Ok r.
Proof.
  destruct (Py.contains ". " s) eqn:Hin.
  - destruct s as [|c s']; [discriminate|].
    destruct (Py.isdigit c) eqn:Hdigit.
    + destruct (clean_folder_name_numbered (String c s'))
        as (p & r & _ & E).
      * now exists c, s'.
      * now apply contains_occurs.
      * now exists r.
    + exists (String c s'). apply clean_folder_name_plain.
      intros [(c' & s'' & [= <- <-] & Hd) _]. congruence.
  - exists s. apply clean_folder_name_plain.
    intros [_ Hocc]. apply occurs_contains in Hocc. congruence.
Qed.

End CleanFolderName.

(** C2. On a name that starts with a digit and contains [". "],
    [clean_folder_name] returns what follows the first occurrence of
    [". "]; on any other name it returns the name unchanged.  The examples
    of the specification evaluate as stated, and with several [". "] the
    first one is the split point. *)
Theorem clean_folder_name_spec :
  (forall s, starts_with_digit s -> occurs ". " s ->
             exists p r, first_occurrence ". " s p r /\
                         LinkListV2.clean_folder_name s = Ok r) /\
  (forall s, ~ (starts_with_digit s /\ occurs ". " s) ->
             LinkListV2.clean_folder_name s = Ok s) /\
  LinkListV2.clean_folder_name "1. D.I Foo Bar" = Ok "D.I Foo Bar" /\
  LinkListV2.clean_folder_name "D.I Foo Bar" = Ok "D.I Foo Bar" /\
  LinkListV2.clean_folder_name "10. Something" = Ok "Something" /\
  LinkListV2.clean_folder_name "1. a. b. c" = Ok "a. b. c".
Proof.
  split; [|split; [|repeat split]].
  - exact clean_folder_name_numbered.
  - exact clean_folder_name_plain.
Qed.

Lemma clean_folder_name_spec_witness :
  (exists p r, first_occurrence ". " "10. Something" p r /\
               LinkListV2.clean_folder_name "10. Something" = Ok r) /\
  LinkListV2.clean_folder_name "D.I Foo Bar" = Ok "D.I Foo Bar".
Proof.
  split.
  - apply (proj1 clean_folder_name_spec).
    + exists "1"%char, "0. Something". split; reflexivity.
    + exists "10", "Something". reflexivity.
  - apply (proj1 (proj2 clean_folder_name_spec)).
    intros [(c & s' & E & Hd) _]. injection E as <- _. discriminate Hd.
Defined.

(** ** Slices and trimming *)

Section SlicesAndTrimming.

Lemma drop_app_length (p x : string) : Py.drop (String.length p) (p ++ x) = x.
Proof. induction p as [|c p IH]; [now destruct x | exact IH]. Qed.

Lemma take_length (x : string) : Py.take (String.length x) x = x.
Proof. induction x as [|c x IH]; [reflexivity | cbn; now rewrite IH]. Qed.

Lemma take_app_length (p x : string) : Py.take (String.length p) (p ++ x) = p.
Proof.
  induction p as [|c p IH]; [now destruct x | cbn; now rewrite IH].
Qed.

Lemma slice_index_of_nat (len n : nat) :
  n <= len -> Py.slice_index len (Z.of_nat n) = n.
Proof.
  intros H. unfold Py.slice_index.
  destruct (Z.ltb_spec (Z.of_nat n) 0); [lia|].
  rewrite Nat2Z.id. lia.
Qed.

(** [(p ++ x)[len(p):] = x] *)
Lemma slice_from_length (p x : string) :
  Py.slice (Some (Z.of_nat (String.length p))) None (p ++ x) = x.
Proof.
  unfold Py.slice. rewrite slice_index_of_nat, append_length.
  - rewrite drop_app_length.
    replace (String.length p + String.length x - String.length p)
      with (String.length x) by lia.
    apply take_length.
  - rewrite append_length. lia.
Qed.

(** [(p ++ x)[:len(p)] = p] *)
Lemma slice_to_length (p x : string) :
  Py.slice None (Some (Z.of_nat (String.length p))) (p ++ x) = p.
Proof.
  unfold Py.slice. rewrite slice_index_of_nat.
  - rewrite Nat.sub_0_r. cbn [Py.drop]. apply take_app_length.
  - rewrite append_length. lia.
Qed.

(** [(q ++ c ++ r)[len(q):len(q)+1] = c] *)
Lemma slice_one (q r : string) (c : ascii) :
  Py.slice (Some (Z.of_nat (String.length q)))
           (Some (Z.of_nat (String.length q) + 1)%Z) (q ++ String c r)
  = String c "".
Proof.
  unfold Py.slice.
  replace (Z.of_nat (String.length q) + 1)%Z
    with (Z.of_nat (S (String.length q))) by lia.
  rewrite !slice_index_of_nat, drop_app_length
    by (rewrite append_length; cbn [String.length]; lia).
  replace (S (String.length q) - String.length q) with 1 by lia.
  reflexivity.
Qed.

Lemma lstrip_by_spec (p : ascii -> bool) (x : string) :
  exists w, x = w ++ Py.lstrip_by p x /\ all_chars p w = true /\
            forall c t, Py.lstrip_by p x = String c t -> p c = false.
Proof.
  induction x as [|a x (w & E & Hw & Hhead)].
  - exists "". repeat split. discriminate.
  - cbn [Py.lstrip_by]. destruct (p a) eqn:Ha.
    + exists (String a w). cbn [append all_chars].
      rewrite <- E, Ha, Hw. now repeat split.
    + exists "". repeat split. intros c t [= <- _]. exact Ha.
Qed.

Lemma rstrip_by_keeps_head (p : ascii -> bool) (c : ascii) (y : string) :
  p c = false ->
  Py.rstrip_by p (String c y) = String c (Py.rstrip_by p y).
Proof.
  intros Hc. cbn [Py.rstrip_by].
  destruct (Py.rstrip_by p y); [now rewrite Hc | reflexivity].
Qed.

Lemma rstrip_by_spec (p : ascii -> bool) (y : string) :
  (exists w, y = Py.rstrip_by p y ++ w /\ all_chars p w = true) /\
  (forall t c, Py.rstrip_by p y = t ++ String c "" -> p c = false).
Proof.
  induction y as [|a y [(w & E & Hw) Hlast]].
  - split; [now exists "" | intros [|? ?] ?; discriminate].
  - cbn [Py.rstrip_by]. destruct (Py.rstrip_by p y) as [|b r] eqn:Hr.
    + destruct (p a) eqn:Ha.
      * split.
        -- exists (String a w). cbn [append all_chars] in *.
           subst w. now rewrite Ha, Hw.
        -- intros [|? ?] ?; discriminate.
      * split.
        -- exists w. cbn [append] in *. now subst w.
        -- intros [|? [|? ?]] c; cbn [append]; intros [= ]; congruence.
    + split.
      * exists w. cbn [append] in *. now rewrite <- E.
      * intros [|a' t] c; cbn [append]; intros [= ]; subst.
        eapply Hlast. eassumption.
Qed.

Lemma strip_trimmed (x : string) : trimmed x (Py.strip x).
Proof.
  unfold Py.strip.
  destruct (lstrip_by_spec Py.isspace x) as (w1 & E1 & Hw1 & Hhead).
  destruct (rstrip_by_spec Py.isspace (Py.lstrip_by Py.isspace x))
    as [(w2 & E2 & Hw2) Hlast].
  split; [|split].
  - exists w1, w2. rewrite <- E2. now repeat split.
  - intros c t Et.
    destruct (Py.lstrip_by Py.isspace x) as [|a y] eqn:Ey; [discriminate|].
    pose proof (Hhead a y eq_refl) as Ha.
    rewrite (rstrip_by_keeps_head _ _ _ Ha) in Et.
    now injection Et as <- _.
  - exact Hlast.
Qed.

(** Trimming keeps a head that is not whitespace. *)
Lemma strip_keeps_head (c : ascii) (y : string) :
  Py.isspace c = false ->
  Py.strip (String c y) = String c (Py.rstrip_by Py.isspace y).
Proof.
  intros Hc. unfold Py.strip. cbn [Py.lstrip_by]. rewrite Hc.
  now apply rstrip_by_keeps_head.
Qed.

End SlicesAndTrimming.

(** ** Segments hold no separator *)

Section Segments.

Lemma char_in_app (c : ascii) (a b : string) :
  Py.char_in c (a ++ b) = Py.char_in c a || Py.char_in c b.
Proof.
  induction a as [|x a IH]; [reflexivity|].
  cbn [append Py.char_in]. now rewrite IH, orb_assoc.
Qed.

Lemma split_char_free (d : ascii) (x : string) :
  Py.char_in d x = false -> Py.split (String d "") None x = [x].
Proof.
  induction x as [|c x IH]; [reflexivity|].
  cbn [Py.char_in]. intros H. apply orb_false_iff in H as [Hc Hx].
  rewrite split_char_cons, Hc, (IH Hx). reflexivity.
Qed.

Lemma Forall_cons_head (P : string -> Prop) (c : ascii) (l : list string) :
  l <> [] ->
  (forall h, P h -> P (String c h)) ->
  Forall P l -> Forall P (Py.cons_head c l).
Proof.
  intros Hne Hc Hl. destruct l as [|h t]; [congruence|].
  inversion Hl; subst. constructor; auto.
Qed.

Lemma split_parts_char_free (d : ascii) (s : string) :
  Forall (fun x => Py.char_in d x = false) (Py.split (String d "") None s).
Proof.
  induction s as [|c s IH]; [repeat constructor|].
  rewrite split_char_cons. destruct (Ascii.eqb d c) eqn:E.
  - constructor; [reflexivity | exact IH].
  - apply Forall_cons_head; [apply split_not_nil | | exact IH].
    intros h Hh. cbn [Py.char_in]. now rewrite E, Hh.
Qed.

Lemma getitem_nth_error {A : Type} (l : list A) (i : nat) (a : A) :
  nth_error l i = Some a -> Py.getitem l i = Ok a.
Proof. unfold Py.getitem. now intros ->. Qed.

End Segments.

(** ** The marker-search decomposer ([link-list-new.py]) *)

Section MarkerSearch.

Lemma di_name_of_short (parts : list string) :
  length parts <= 2 -> LinkListNew.di_name_of parts = Ok "".
Proof.
  intros H. unfold LinkListNew.di_name_of.
  destruct (Nat.ltb_spec 2 (length parts)); [lia | reflexivity].
Qed.

Lemma di_name_of_at (parts : list string) (seg : string) :
  nth_error parts 2 = Some seg ->
  LinkListNew.di_name_of parts =
  if Py.contains "D.I" seg then
    first <- Py.getitem
               (Py.split "/" None
                  (Py.slice (Some (Py.find "D.I" seg)) None seg)) 0 ;;
    Ok (Py.strip first)
  else Ok "".
Proof.
  intros H. unfold LinkListNew.di_name_of.
  assert (2 < length parts) as Hlen
      by (apply nth_error_Some; congruence).
  apply Nat.ltb_lt in Hlen. rewrite Hlen.
  rewrite (getitem_nth_error _ _ _ H). reflexivity.
Qed.

Lemma di_name_of_absent (parts : list string) (seg : string) :
  nth_error parts 2 = Some seg ->
  Py.contains "D.I" seg = false ->
  LinkListNew.di_name_of parts = Ok "".
Proof. intros H Hc. now rewrite (di_name_of_at _ _ H), Hc. Qed.

(** When the marker is found in a segment, the [split("/")[0]] of the
    source changes nothing: a segment holds no ['/']. *)
Lemma di_name_of_found (parts : list string) (seg : string) :
  nth_error parts 2 = Some seg ->
  Py.char_in "/" seg = false ->
  Py.contains "D.I" seg = true ->
  exists p r, first_occurrence "D.I" seg p r /\
              LinkListNew.di_name_of parts = Ok (Py.strip ("D.I" ++ r)).
Proof.
  intros H Hfree Hc.
  destruct (find_first_occurrence _ _ Hc) as (p & r & Hfirst & Hfind).
  exists p, r. split; [exact Hfirst|].
  rewrite (di_name_of_at _ _ H), Hc, Hfind.
  destruct Hfirst as [E _]. rewrite E.
  rewrite slice_from_length, split_char_free; [reflexivity|].
  rewrite E, char_in_app in Hfree. now apply orb_false_iff in Hfree.
Qed.

Lemma row_from_path_unfold (path : string) :
  LinkListNew.row_from_path path =
  d <- LinkListNew.di_name_of (segments path) ;;
  Ok [nth 0 (segments path) ""; nth 1 (segments path) ""; d; "./" ++ path].
Proof.
  unfold LinkListNew.row_from_path, segments.
  pose proof (split_not_nil "/" None path) as Hne.
  destruct (Py.split "/" None path) as [|a [|b l]]; [congruence| |];
    reflexivity.
Qed.

Lemma segment_char_free (path seg : string) (i : nat) :
  nth_error (segments path) i = Some seg -> Py.char_in "/" seg = false.
Proof.
  intros H. apply nth_error_In in H.
  pose proof (split_parts_char_free "/" path) as Hall.
  rewrite Forall_forall in Hall. now apply Hall.
Qed.

(** The sub-unit column of a row, whatever the depth of the path. *)
Lemma row_from_path_subunit (path : string) :
  exists d,
    LinkListNew.row_from_path path =
    Ok [nth 0 (segments path) ""; nth 1 (segments path) ""; d; "./" ++ path]
    /\ (d = "" \/ exists r, d = "D.I" ++ r).
Proof.
  rewrite row_from_path_unfold.
  destruct (nth_error (segments path) 2) as [seg|] eqn:Hseg.
  - destruct (Py.contains "D.I" seg) eqn:Hc.
    + destruct (di_name_of_found _ _ Hseg (segment_char_free _ _ _ Hseg) Hc)
        as (p & r & _ & ->).
      eexists. split; [reflexivity|]. right.
      cbn [append]. rewrite strip_keeps_head by reflexivity.
      rewrite !rstrip_by_keeps_head by reflexivity.
      now eexists.
    + rewrite (di_name_of_absent _ _ Hseg Hc). exists "". now split; [|left].
  - apply nth_error_None in Hseg. rewrite (di_name_of_short _ Hseg).
    exists "". now split; [|left].
Qed.

End MarkerSearch.

(** C3. Under the marker-search rule, on a path of at least 4 segments,
    the sub-unit column is computed from segment 2: when ["D.I"] occurs in
    it, the sub-unit is the segment from the first occurrence of ["D.I"]
    to its end, trimmed of surrounding whitespace; otherwise it is the
    empty string.  On the segment ["1. M3 D.I Citasuk Banten Paket I"] the
    sub-unit is ["D.I Citasuk Banten Paket I"]. *)
Theorem marker_search_subunit :
  (forall path, 4 <= length (segments path) ->
     exists a b seg2 d,
       nth_error (segments path) 2 = Some seg2 /\
       LinkListNew.row_from_path path = Ok [a; b; d; "./" ++ path] /\
       (occurs "D.I" seg2 ->
        exists p r, first_occurrence "D.I" seg2 p r /\
                    trimmed ("D.I" ++ r) d) /\
       (~ occurs "D.I" seg2 -> d = "")) /\
  (forall path, 4 <= length (segments path) ->
     nth_error (segments path) 2 = Some "1. M3 D.I Citasuk Banten Paket I" ->
     exists a b,
       LinkListNew.row_from_path path =
       Ok [a; b; "D.I Citasuk Banten Paket I"; "./" ++ path]).
Proof.
  split.
  - intros path Hlen.
    destruct (nth_error (segments path) 2) as [seg|] eqn:Hseg;
      [|apply nth_error_None in Hseg; lia].
    rewrite row_from_path_unfold.
    destruct (Py.contains "D.I" seg) eqn:Hc.
    + destruct (di_name_of_found _ _ Hseg (segment_char_free _ _ _ Hseg) Hc)
        as (p & r & Hfirst & ->).
      do 4 eexists. split; [reflexivity|]. split; [reflexivity|]. split.
      * intros _. exists p, r. split; [exact Hfirst | apply strip_trimmed].
      * intros Hno. exfalso. apply Hno. now apply contains_occurs.
    + rewrite (di_name_of_absent _ _ Hseg Hc).
      do 4 eexists. split; [reflexivity|]. split; [reflexivity|]. split.
      * intros Hocc. apply occurs_contains in Hocc. congruence.
      * reflexivity.
  - intros path _ Hseg. rewrite row_from_path_unfold.
    rewrite (di_name_of_at _ _ Hseg). now do 2 eexists.
Qed.

Lemma marker_search_subunit_witness :
  (exists a b seg2 d,
     nth_error (segments "Oplah/M3/1. M3 D.I Citasuk Banten Paket I/a.png") 2
       = Some seg2 /\
     LinkListNew.row_from_path
       "Oplah/M3/1. M3 D.I Citasuk Banten Paket I/a.png"
       = Ok [a; b; d; "./Oplah/M3/1. M3 D.I Citasuk Banten Paket I/a.png"] /\
     (occurs "D.I" seg2 ->
      exists p r, first_occurrence "D.I" seg2 p r /\
                  trimmed ("D.I" ++ r) d) /\
     (~ occurs "D.I" seg2 -> d = "")) /\
  (exists a b,
     LinkListNew.row_from_path
       "Oplah/M3/1. M3 D.I Citasuk Banten Paket I/a.png"
     = Ok [a; b; "D.I Citasuk Banten Paket I";
           "./Oplah/M3/1. M3 D.I Citasuk Banten Paket I/a.png"]).
Proof.
  split.
  - apply (proj1 marker_search_subunit
             "Oplah/M3/1. M3 D.I Citasuk Banten Paket I/a.png").
    vm_compute. lia.
  - apply (proj2 marker_search_subunit
             "Oplah/M3/1. M3 D.I Citasuk Banten Paket I/a.png").
    + vm_compute. lia.
    + reflexivity.
Defined.

(** C10. Under the marker-search variant, a sub-unit column that is not
    empty begins with ["D.I"]. *)
Theorem marker_search_subunit_starts_with_marker :
  forall path row d,
    LinkListNew.row_from_path path = Ok row ->
    nth_error row 2 = Some d ->
    d <> "" ->
    exists r, d = "D.I" ++ r.
Proof.
  intros path row d Hrow Hd Hne.
  destruct (row_from_path_subunit path) as (d' & E & Hd').
  rewrite E in Hrow. injection Hrow as <-. cbn in Hd. injection Hd as ->.
  destruct Hd' as [->|H]; [congruence | exact H].
Qed.

Lemma marker_search_subunit_starts_with_marker_witness :
  exists r, "D.I Citasuk Banten Paket I" = "D.I" ++ r.
Proof.
  apply (marker_search_subunit_starts_with_marker
           "Oplah/M3/1. M3 D.I Citasuk Banten Paket I /a.png"
           ["Oplah"; "M3"; "D.I Citasuk Banten Paket I";
            "./Oplah/M3/1. M3 D.I Citasuk Banten Paket I /a.png"]
           "D.I Citasuk Banten Paket I").
  - reflexivity.
  - reflexivity.
  - discriminate.
Defined.

(** ** The numeric-prefix decomposer ([link-list-v2.py]) *)

Section PrefixStrip.

Lemma parse_path_info_unfold (path : string) :
  LinkListV2.parse_path_info path =
  match effective_parts path with
  | [a; b] => Ok (a, "", "", path)
  | [a; b; c] => Ok (a, b, "", path)
  | a :: b :: c :: _ :: _ =>
      nama_di <- LinkListV2.clean_folder_name c ;; Ok (a, b, nama_di, path)
  | _ => Raise IndexError
  end.
Proof.
  unfold LinkListV2.parse_path_info, effective_parts, segments.
  pose proof (split_not_nil "/" None path) as Hne.
  destruct (Py.split "/" None path) as [|h t]; [congruence|].
  cbn [Py.getitem nth_error bind].
  destruct (String.eqb h ".").
  - destruct t as [|a [|b [|c [|d l]]]]; reflexivity.
  - destruct t as [|b [|c [|d l]]]; reflexivity.
Qed.

Lemma split_dot_slash (r : string) :
  Py.split "/" None ("./" ++ r) = "." :: Py.split "/" None r.
Proof. cbn [append]. now rewrite !split_char_cons. Qed.

Lemma split_head_dot (path : string) (t : list string) :
  Py.split "/" None path = "." :: t ->
  Py.startswith path "./" = false ->
  path = "." /\ t = [].
Proof.
  destruct path as [|c s]; [discriminate|].
  rewrite split_char_cons. destruct (Ascii.eqb "/" c); [discriminate|].
  pose proof (split_not_nil "/" None s) as Hne.
  destruct (Py.split "/" None s) as [|h' t'] eqn:Es; [congruence|].
  cbn [Py.cons_head]. intros [= -> -> ->] Hstart.
  destruct s as [|c2 s2]; [now injection Es as <-|].
  rewrite split_char_cons in Es. destruct (Ascii.eqb_spec "/" c2).
  - subst c2. unfold Py.startswith in Hstart.
    change (String "." (String "/" s2)) with ("./" ++ s2) in Hstart.
    rewrite prefix_app in Hstart. discriminate Hstart.
  - pose proof (split_not_nil "/" None s2) as Hne2.
    destruct (Py.split "/" None s2); [congruence | discriminate].
Qed.

(** Dropping the ["."] part after [split] is stripping ["./"] before it;
    the one path on which they differ is ["."]. *)
Lemma effective_parts_without_marker (path : string) :
  effective_parts path = segments (without_marker path) \/
  (path = "." /\ effective_parts path = []).
Proof.
  unfold without_marker. destruct (Py.startswith path "./") eqn:Hstart.
  - left. apply prefix_inv in Hstart as [r ->].
    unfold effective_parts, segments. rewrite split_dot_slash. reflexivity.
  - unfold effective_parts, segments.
    pose proof (split_not_nil "/" None path) as Hne.
    destruct (Py.split "/" None path) as [|h t] eqn:Es; [congruence|].
    destruct (String.eqb_spec h ".") as [->|]; [|now left].
    right. destruct (split_head_dot _ _ Es Hstart) as [-> ->]. now split.
Qed.

Lemma effective_parts_of_length (path : string) (n : nat) :
  length (segments (without_marker path)) = S (S n) ->
  effective_parts path = segments (without_marker path).
Proof.
  intros Hlen.
  destruct (effective_parts_without_marker path) as [E|[-> _]];
    [exact E | discriminate Hlen].
Qed.

End PrefixStrip.

(** C1. [parse_path_info] returns an empty period and an empty sub-unit
    on every path that, once a leading ["./"] is stripped, has exactly 2
    segments, and an empty sub-unit on every such path of exactly 3
    segments.  The marker-search [row_from_path] has no test on the depth
    and misses both: for an image that lies directly in the scanned folder
    the path has 2 segments and the period column receives the file name;
    for an image in a period folder the path has 3 segments and the marker
    search runs on the file name.  On the same paths the [row_from_path]
    of [link-list.py] leaves these columns empty. *)
Theorem short_paths_period_and_subunit :
  (forall path, length (segments (without_marker path)) = 2 ->
     exists a, LinkListV2.parse_path_info path = Ok (a, "", "", path)) /\
  (forall path, length (segments (without_marker path)) = 3 ->
     exists a b, LinkListV2.parse_path_info path = Ok (a, b, "", path)) /\
  LinkListNew.row_from_path (LinkListNewRun.slash_path "Oplah" "a.png")
    = Ok ["Oplah"; "a.png"; ""; "./Oplah/a.png"] /\
  LinkListNew.row_from_path
    (LinkListNewRun.slash_path "Oplah" "M3/Peta D.I Foo.png")
    = Ok ["Oplah"; "M3"; "D.I Foo.png"; "./Oplah/M3/Peta D.I Foo.png"] /\
  LinkList.row_from_path Posix "Oplah/a.png"
    = Ok ["Oplah"; ""; ""; "a.png"] /\
  LinkList.row_from_path Posix "Oplah/M3/Peta D.I Foo.png"
    = Ok ["Oplah"; "M3"; ""; "Peta D.I Foo.png"].
Proof.
  split; [|split; [|repeat split]].
  - intros path Hlen. rewrite parse_path_info_unfold.
    rewrite (effective_parts_of_length _ _ Hlen).
    destruct (segments (without_marker path)) as [|a [|b [|c l]]];
      try discriminate Hlen.
    now exists a.
  - intros path Hlen. rewrite parse_path_info_unfold.
    rewrite (effective_parts_of_length _ _ Hlen).
    destruct (segments (without_marker path)) as [|a [|b [|c [|d l]]]];
      try discriminate Hlen.
    now exists a, b.
Qed.

Lemma short_paths_period_and_subunit_witness :
  (exists a, LinkListV2.parse_path_info "./Oplah/a.png"
             = Ok (a, "", "", "./Oplah/a.png")) /\
  (exists a b, LinkListV2.parse_path_info "./Oplah/M3/Peta D.I Foo.png"
               = Ok (a, b, "", "./Oplah/M3/Peta D.I Foo.png")).
Proof.
  destruct short_paths_period_and_subunit as (H2 & H3 & _).
  split.
  - apply (H2 "./Oplah/a.png"). reflexivity.
  - apply (H3 "./Oplah/M3/Peta D.I Foo.png"). reflexivity.
Defined.

(** ** The run of [link-list-v2.py] *)

Section Main.

Lemma length_cons_head (c : ascii) (l : list string) :
  l <> [] -> length (Py.cons_head c l) = length l.
Proof. now destruct l. Qed.

Lemma split_app_sep_length (a b : string) :
  2 <= length (Py.split "/" None (a ++ "/" ++ b)).
Proof.
  induction a as [|c a IH].
  - cbn [append]. rewrite split_char_cons. cbn [Ascii.eqb length].
    pose proof (split_not_nil "/" None b) as Hne.
    destruct (Py.split "/" None b); [congruence | cbn; lia].
  - cbn [append] in *. rewrite split_char_cons. destruct (Ascii.eqb "/" c).
    + cbn [length]. lia.
    + rewrite length_cons_head by apply split_not_nil. exact IH.
Qed.

(** [parse_path_info] does not raise on the paths [main] builds. *)
Lemma parse_path_info_dot_path (path : string) :
  is_dot_path path ->
  exists a b d, LinkListV2.parse_path_info path = Ok (a, b, d, path).
Proof.
  intros (folder & f & ->). rewrite parse_path_info_unfold.
  unfold effective_parts, segments, LinkListV2.dot_path.
  change (String.concat "" ["./"; folder; "/"; f])
    with ("./" ++ (folder ++ "/" ++ f)).
  rewrite split_dot_slash. cbn [String.eqb Ascii.eqb Bool.eqb].
  pose proof (split_app_sep_length folder f) as Hlen.
  destruct (Py.split "/" None (folder ++ "/" ++ f))
    as [|a [|b [|c [|d l]]]]; cbn [length] in Hlen; try lia.
  - now exists a, "", "".
  - now exists a, b, "".
  - destruct (clean_folder_name_total c) as [r ->]. now exists a, b, r.
Qed.

Lemma collect_files_dot_paths (w : world) (argv files : list string) :
  LinkListV2.collect_files w argv = inr files ->
  Forall is_dot_path files.
Proof.
  unfold LinkListV2.collect_files. destruct argv as [|folder_path rest].
  - assert (forall l,
               Forall is_dot_path
                 (flat_map
                    (fun folder =>
                       if negb (isdir w folder) then []
                       else map (LinkListV2.dot_path folder)
                              (list_images w folder)) l)) as Hall.
    { intros l. apply Forall_flat_map, Forall_forall.
      intros folder _. destruct (negb (isdir w folder)); [constructor|].
      apply Forall_map, Forall_forall. intros f _. now exists folder, f. }
    destruct (scan_current_directory w) as [|d ds]; [discriminate|].
    intros [= <-]. apply (Hall (d :: ds)).
  - destruct (negb (isdir w folder_path)); [discriminate|].
    intros [= <-]. apply Forall_map, Forall_forall.
    intros f _. now exists folder_path, f.
Qed.

Lemma write_rows_without_remote (files : list string) :
  Forall is_dot_path files ->
  exists rows, LinkListV2.write_rows None files = Ok rows /\
               Forall2 row_without_url files rows.
Proof.
  induction 1 as [|path files Hpath _ (rows & E & Hrows)].
  - exists []. now split.
  - destruct (parse_path_info_dot_path _ Hpath) as (a & b & d & Ep).
    exists ([a; b; d; path; ""] :: rows). split.
    + cbn [LinkListV2.write_rows]. unfold LinkListV2.row_of.
      rewrite Ep. cbn [bind]. now rewrite E.
    + constructor; [now exists a, b, d | exact Hrows].
Qed.

(** Not a repository: [git config] fails, [get_git_info] raises
    [ValueError]. *)
Lemma get_git_info_no_repository (w : world) :
  git_remote_origin_url w = NonZeroExit ->
  Common.get_git_info w = Raise ValueError.
Proof. unfold Common.get_git_info. now intros ->. Qed.

(** Host mismatch: the remote does not mention [github.com]. *)
Lemma get_git_info_other_host (w : world) (out : string) :
  git_remote_origin_url w = Output out ->
  Py.contains "github.com" (Py.strip out) = false ->
  Common.get_git_info w = Raise ValueError.
Proof.
  unfold Common.get_git_info, Common.owner_repo_of_remote.
  intros -> Hhost. cbn [check_output bind]. now rewrite Hhost.
Qed.

(** No [git] executable: the [FileNotFoundError] goes through
    [get_git_info]. *)
Lemma get_git_info_no_executable (w : world) :
  git_remote_origin_url w = NoExecutable ->
  Common.get_git_info w = Raise FileNotFoundError.
Proof. unfold Common.get_git_info. now intros ->. Qed.

(** When [get_git_info] raises [ValueError], the run goes on and writes
    one row per path, with an empty [url] and the other columns as
    [parse_path_info] gives them. *)
Lemma main_value_error_rows (w : world) (argv files : list string) :
  LinkListV2.collect_files w argv = inr files ->
  files <> [] ->
  Common.get_git_info w = Raise ValueError ->
  exists rows,
    LinkListV2.main w argv
    = Ok (LinkListV2.Exit 0%Z (Some (LinkListV2.header :: rows))) /\
    Forall2 row_without_url files rows.
Proof.
  intros Hfiles Hne Hgit.
  destruct (write_rows_without_remote files
              (collect_files_dot_paths _ _ _ Hfiles)) as (rows & E & Hrows).
  exists rows. split; [|exact Hrows].
  unfold LinkListV2.main, LinkListV2.resolve_remote.
  rewrite Hfiles, Hgit. cbn [bind].
  destruct files; [congruence|]. now rewrite E.
Qed.

(** Outside a repository the run goes on and the [url] column is empty. *)
Example main_no_repository :
  LinkListV2.main proj_world_no_repository ["Proj"] =
  Ok (LinkListV2.Exit 0%Z
        (Some [LinkListV2.header;
               ["Proj"; "M3"; "D.I Foo"; "./Proj/M3/1. D.I Foo/img.png";
                ""]])).
Proof. reflexivity. Qed.

End Main.

(** ** The empty path *)



(** C9. When [git] is not installed, [subprocess.check_output] raises
    [FileNotFoundError]; [get_git_info] only turns [CalledProcessError]
    into [ValueError], and [main] only recovers from [ValueError]: the
    run aborts and writes no row. *)
Theorem main_without_git_aborts :
  forall w argv files,
    LinkListV2.collect_files w argv = inr files ->
    git_remote_origin_url w = NoExecutable ->
    LinkListV2.main w argv = Raise FileNotFoundError.
Proof.
  intros w argv files Hfiles Hgit.
  unfold LinkListV2.main, LinkListV2.resolve_remote.
  now rewrite Hfiles, (get_git_info_no_executable _ Hgit).
Qed.

Lemma main_without_git_aborts_witness :
  LinkListV2.main proj_world_without_git ["Proj"] = Raise FileNotFoundError.
Proof.
  apply (main_without_git_aborts proj_world_without_git ["Proj"]
           ["./Proj/M3/1. D.I Foo/img.png"]); reflexivity.
Defined.

(** C4 (amended). With the scan root ["Proj"] that holds
    ["M3/1. D.I Foo/img.png"] and the remote [(o, r, main)], [main] writes
    one row, whose displayName column is the path with the ["./"] that
    [main] puts before the scan root, and whose URL is the space-only
    encoding of that same path.  The row without ["./"] is what one turn
    of the loop gives on the bare path ["Proj/M3/1. D.I Foo/img.png"]. *)
Theorem main_end_to_end_row :
  (forall w,
     isdir w "Proj" = true ->
     list_images w "Proj" = ["M3/1. D.I Foo/img.png"] ->
     Common.get_git_info w = Ok ("o", "r", "main") ->
     LinkListV2.main w ["Proj"] =
     Ok (LinkListV2.Exit 0%Z
           (Some [LinkListV2.header;
                  ["Proj"; "M3"; "D.I Foo"; "./Proj/M3/1. D.I Foo/img.png";
                   "https://raw.githubusercontent.com/o/r/refs/heads/main/./Proj/M3/1.%20D.I%20Foo/img.png"]]))) /\
  LinkListV2.row_of (Some ("o", "r", "main")) "Proj/M3/1. D.I Foo/img.png" =
  Ok ["Proj"; "M3"; "D.I Foo"; "Proj/M3/1. D.I Foo/img.png";
      "https://raw.githubusercontent.com/o/r/refs/heads/main/Proj/M3/1.%20D.I%20Foo/img.png"].
Proof.
  split; [|reflexivity].
  intros w Hdir Himages Hgit.
  unfold LinkListV2.main, LinkListV2.collect_files, LinkListV2.resolve_remote.
  rewrite Hdir, Himages, Hgit. reflexivity.
Qed.

Lemma main_end_to_end_row_witness :
  LinkListV2.main proj_world ["Proj"] =
  Ok (LinkListV2.Exit 0%Z
        (Some [LinkListV2.header;
               ["Proj"; "M3"; "D.I Foo"; "./Proj/M3/1. D.I Foo/img.png";
                "https://raw.githubusercontent.com/o/r/refs/heads/main/./Proj/M3/1.%20D.I%20Foo/img.png"]])).
Proof.
  apply (proj1 main_end_to_end_row proj_world); reflexivity.
Defined.

(** C4 as stated fails: the row [main] writes for this image is not the
    row of the claim. *)
Lemma main_end_to_end_row_counterexample :
  LinkListV2.main proj_world ["Proj"] <>
  Ok (LinkListV2.Exit 0%Z
        (Some [LinkListV2.header;
               ["Proj"; "M3"; "D.I Foo"; "Proj/M3/1. D.I Foo/img.png";
                "https://raw.githubusercontent.com/o/r/refs/heads/main/Proj/M3/1.%20D.I%20Foo/img.png"]])).
Proof. vm_compute. discriminate. Qed.

(** ** The Extension Classifier *)

Section Splitext.

Lemma rfind_unfold (sub : string) (a : ascii) (s : string) :
  Py.rfind sub (String a s) =
  if (0 <=? Py.rfind sub s)%Z then (Py.rfind sub s + 1)%Z
  else if prefix sub (String a s) then 0%Z else (-1)%Z.
Proof. reflexivity. Qed.

Lemma rfind_char_absent (c : ascii) (s : string) :
  Py.char_in c s = false -> Py.rfind (String c "") s = (-1)%Z.
Proof.
  induction s as [|a s IH]; [reflexivity|].
  cbn [Py.char_in]. intros H. apply orb_false_iff in H as [Ha Hs].
  rewrite rfind_unfold, (IH Hs), prefix_char, Ha. reflexivity.
Qed.

Lemma rfind_char_last (c : ascii) (p e : string) :
  Py.char_in c e = false ->
  Py.rfind (String c "") (p ++ String c e) = Z.of_nat (String.length p).
Proof.
  intros He. induction p as [|a p IH].
  - cbn [append]. rewrite rfind_unfold, (rfind_char_absent _ _ He).
    now rewrite prefix_char, Ascii.eqb_refl.
  - cbn [append]. rewrite rfind_unfold, IH.
    destruct (Z.leb_spec 0 (Z.of_nat (String.length p)));
      cbn [String.length]; lia.
Qed.

(** A string holds no [c], or splits at its last [c]. *)
Lemma last_char_decomposition (c : ascii) (s : string) :
  Py.char_in c s = false \/
  exists p e, s = p ++ String c e /\ Py.char_in c e = false.
Proof.
  induction s as [|a s [IH|(p & e & -> & He)]].
  - now left.
  - cbn [Py.char_in]. destruct (Ascii.eqb_spec c a) as [<-|].
    + right. now exists "", s.
    + now left.
  - right. now exists (String a p), e.
Qed.

Lemma string_eqb_char (c d : ascii) :
  String.eqb (String c "") (String d "") = Ascii.eqb c d.
Proof. cbn [String.eqb]. destruct (Ascii.eqb c d); reflexivity. Qed.

Lemma splitext_scan_dots (q p rest : string) :
  Py.splitext_scan "." (q ++ p ++ rest) (Z.of_nat (String.length q))
    (String.length p)
  = negb (only_dots p).
Proof.
  revert q. induction p as [|c p IH]; intros q; [reflexivity|].
  cbn [String.length Py.splitext_scan append].
  rewrite slice_one.
  rewrite string_eqb_char.
  unfold only_dots. cbn [all_chars].
  destruct (Ascii.eqb c "."); [|reflexivity]. cbn [negb andb].
  specialize (IH (q ++ String c "")).
  rewrite append_assoc, append_length in IH. cbn [append String.length] in IH.
  replace (Z.of_nat (String.length q) + 1)%Z
    with (Z.of_nat (String.length q + 1)) by lia.
  exact IH.
Qed.

Lemma slice_to_zero (s : string) : Py.slice None (Some 0%Z) s = "".
Proof. reflexivity. Qed.

Lemma splitext_no_dot (s : string) :
  Py.char_in "/" s = false ->
  Py.char_in "." s = false -> Py.splitext s = (s, "").
Proof.
  intros Hslash Hdot. unfold Py.splitext.
  now rewrite (rfind_char_absent _ _ Hslash), (rfind_char_absent _ _ Hdot).
Qed.

Lemma splitext_at_last_dot (p e : string) :
  Py.char_in "/" (p ++ String "." e) = false ->
  Py.char_in "." e = false ->
  Py.splitext (p ++ String "." e) =
  if only_dots p then (p ++ String "." e, "") else (p, String "." e).
Proof.
  intros Hslash He. unfold Py.splitext.
  rewrite (rfind_char_absent _ _ Hslash), (rfind_char_last _ _ _ He).
  replace (Z.to_nat (Z.of_nat (String.length p) - (-1 + 1)))
    with (String.length p) by lia.
  replace ((-1 <? Z.of_nat (String.length p))%Z) with true
    by (symmetry; apply Z.ltb_lt; lia).
  cbn [andb].
  pose proof (splitext_scan_dots "" p (String "." e)) as Hscan.
  cbn [append String.length] in Hscan.
  change (-1 + 1)%Z with (Z.of_nat 0). rewrite Hscan.
  destruct (only_dots p); cbn [negb].
  - reflexivity.
  - rewrite slice_to_length, slice_from_length. reflexivity.
Qed.

Lemma lower_app (a b : string) :
  Py.lower (a ++ b) = Py.lower a ++ Py.lower b.
Proof.
  induction a as [|x a IH]; [reflexivity|].
  cbn [append Py.lower]. now rewrite IH.
Qed.

Lemma lower_at_dot (p e : string) :
  Py.lower (p ++ String "." e) = Py.lower p ++ String "." (Py.lower e).
Proof. now rewrite lower_app. Qed.

Lemma lower_char_keeps (d c : ascii) :
  d = "."%char \/ d = "/"%char ->
  Ascii.eqb (Py.lower_char c) d = Ascii.eqb c d.
Proof.
  intros [->| ->];
    destruct c as [[] [] [] [] [] [] [] []]; reflexivity.
Qed.

Lemma char_in_lower (d : ascii) (s : string) :
  d = "."%char \/ d = "/"%char ->
  Py.char_in d (Py.lower s) = Py.char_in d s.
Proof.
  intros Hd. induction s as [|c s IH]; [reflexivity|].
  cbn [Py.lower Py.char_in].
  rewrite IH, (Ascii.eqb_sym d), (lower_char_keeps _ _ Hd), Ascii.eqb_sym.
  reflexivity.
Qed.

Lemma only_dots_lower (s : string) : only_dots (Py.lower s) = only_dots s.
Proof.
  unfold only_dots. induction s as [|c s IH]; [reflexivity|].
  cbn [Py.lower all_chars]. rewrite IH, lower_char_keeps by now left.
  reflexivity.
Qed.

Lemma is_image_unfold (f : string) :
  Common.is_image f =
  Common.mem (snd (Py.splitext (Py.lower f))) Common.ALLOWED_EXT.
Proof.
  unfold Common.is_image. now destruct (Py.splitext (Py.lower f)).
Qed.

Lemma mem_allowed_ext (e : string) :
  Common.mem (String "." e) Common.ALLOWED_EXT = true <->
  In e image_extensions.
Proof.
  unfold Common.mem. rewrite existsb_exists. split.
  - intros (x & Hx & E). apply String.eqb_eq in E. subst x.
    change Common.ALLOWED_EXT with (map (String ".") image_extensions) in Hx.
    apply in_map_iff in Hx as (y & [= ->] & Hy). exact Hy.
  - intros He. exists (String "." e). split; [|apply String.eqb_refl].
    change Common.ALLOWED_EXT with (map (String ".") image_extensions).
    now apply in_map.
Qed.

End Splitext.

(** C7 (amended). For a file name [f] (no ['/']), [is_image f] holds
    exactly when [f] ends with a dot followed by an extension that has no
    dot and, lowercased, belongs to the fixed set, and the part of [f]
    before that dot is not made of dots only: as [os.path.splitext] has
    it, a name such as [".png"] or ["..png"] has no extension.  The three
    examples of the specification evaluate as stated. *)
Theorem is_image_spec :
  (forall f, Py.char_in "/" f = false ->
     (Common.is_image f = true <->
      exists stem e,
        f = stem ++ "." ++ e /\ Py.char_in "." e = false /\
        In (Py.lower e) image_extensions /\ only_dots stem = false)) /\
  Common.is_image "Photo.JPG" = true /\
  Common.is_image "notes.txt" = false /\
  Common.is_image "noext" = false /\
  Common.is_image ".png" = false.
Proof.
  split; [|repeat split].
  intros f Hslash. rewrite is_image_unfold. split.
  - intros Himg.
    destruct (last_char_decomposition "." f) as [Hno|(p & e & -> & He)].
    + rewrite splitext_no_dot in Himg; [discriminate | |];
        (rewrite char_in_lower; [assumption | tauto]).
    + rewrite lower_at_dot, splitext_at_last_dot, only_dots_lower in Himg.
      * destruct (only_dots p) eqn:Hdots; [discriminate|].
        exists p, e. split; [reflexivity|]. split; [exact He|].
        split; [now apply mem_allowed_ext | exact Hdots].
      * rewrite <- lower_at_dot, char_in_lower; [assumption | tauto].
      * rewrite char_in_lower; [assumption | tauto].
  - intros (stem & e & -> & He & Hin & Hdots).
    change (stem ++ "." ++ e) with (stem ++ String "." e) in *.
    rewrite lower_at_dot, splitext_at_last_dot, only_dots_lower, Hdots.
    + now apply mem_allowed_ext.
    + rewrite <- lower_at_dot, char_in_lower; [assumption | tauto].
    + rewrite char_in_lower; [assumption | tauto].
Qed.

Lemma is_image_spec_witness :
  Common.is_image "Photo.JPG" = true <->
  exists stem e,
    "Photo.JPG" = stem ++ "." ++ e /\ Py.char_in "." e = false /\
    In (Py.lower e) image_extensions /\ only_dots stem = false.
Proof.
  apply (proj1 is_image_spec "Photo.JPG"). reflexivity.
Defined.

(** C7 as stated fails: the text of [".png"] after its last dot is in the
    set, and [is_image] rejects it. *)
Lemma is_image_counterexample :
  ~ (forall f,
       Common.is_image f = true <->
       exists stem e,
         f = stem ++ "." ++ e /\ Py.char_in "." e = false /\
         In (Py.lower e) image_extensions).
Proof.
  intros H. assert (Common.is_image ".png" = true) as E.
  { apply H. exists "", "png". repeat split. now left. }
  discriminate E.
Qed.

(** * Further properties of the code *)

(** ** [encode_path] *)

Section EncodePath.

Lemma encode_path_is_replace (path : string) :
  Common.encode_path path = Py.replace " " "%20" path.
Proof.
  induction path as [|c path IH]; [reflexivity|].
  now rewrite encode_path_cons, replace_space_cons, IH.
Qed.

Lemma encode_path_app (a b : string) :
  Common.encode_path (a ++ b) = Common.encode_path a ++ Common.encode_path b.
Proof.
  induction a as [|c a IH]; [reflexivity|].
  cbn [append]. now rewrite !encode_path_cons, IH, append_assoc.
Qed.

Lemma encode_path_space_free (path : string) :
  Py.char_in " " (Common.encode_path path) = false.
Proof.
  induction path as [|c path IH]; [reflexivity|].
  rewrite encode_path_cons, char_in_app, IH, orb_false_r.
  destruct (Ascii.eqb_spec c " ") as [->|Hc]; [reflexivity|].
  cbn [Py.char_in]. rewrite orb_false_r. apply Ascii.eqb_neq. congruence.
Qed.

Lemma encode_path_fixed (path : string) :
  Py.char_in " " path = false -> Common.encode_path path = path.
Proof.
  induction path as [|c path IH]; [reflexivity|].
  cbn [Py.char_in]. intros H. apply orb_false_iff in H as [Hc Hp].
  rewrite encode_path_cons, (IH Hp), Ascii.eqb_sym, Hc. reflexivity.
Qed.

Lemma encode_path_length (path : string) :
  String.length path <= String.length (Common.encode_path path).
Proof.
  induction path as [|c path IH]; [cbn; lia|].
  rewrite encode_path_cons, append_length.
  destruct (Ascii.eqb c " "); cbn [String.length]; lia.
Qed.

Lemma encode_path_grows (path : string) :
  Py.char_in " " path = true ->
  String.length path < String.length (Common.encode_path path).
Proof.
  induction path as [|c path IH]; [discriminate|].
  cbn [Py.char_in]. intros H.
  rewrite encode_path_cons, append_length.
  pose proof (encode_path_length path) as Hle.
  destruct (Ascii.eqb_spec c " ") as [->|Hc].
  - cbn [String.length]. lia.
  - apply orb_true_iff in H as [H|H].
    + apply Ascii.eqb_eq in H. congruence.
    + specialize (IH H). cbn [String.length]. lia.
Qed.

End EncodePath.

(** X1. The split and the join of [encode_path] change nothing: the
    function is [path.replace(' ', '%20')] on the whole path, and so it
    goes through concatenation. *)
Theorem encode_path_replace_morphism :
  forall a b,
    Common.encode_path a = Py.replace " " "%20" a /\
    Common.encode_path (a ++ b) =
    Common.encode_path a ++ Common.encode_path b.
Proof.
  intros a b. split; [apply encode_path_is_replace | apply encode_path_app].
Qed.

(** X2. An encoded path holds no space, a path is left unchanged exactly
    when it holds no space, and encoding twice is encoding once (a ['%']
    is never encoded again). *)
Theorem encode_path_idempotent :
  forall path,
    Py.char_in " " (Common.encode_path path) = false /\
    (Common.encode_path path = path <-> Py.char_in " " path = false) /\
    Common.encode_path (Common.encode_path path) = Common.encode_path path.
Proof.
  intros path. split; [apply encode_path_space_free|]. split.
  - split; [|apply encode_path_fixed].
    intros E. destruct (Py.char_in " " path) eqn:H; [|reflexivity].
    apply encode_path_grows in H. rewrite E in H. lia.
  - apply encode_path_fixed, encode_path_space_free.
Qed.

(** ** Splitting on ['/'] and joining again *)

Section SplitJoin.

Lemma join_cons_head (sep : string) (c : ascii) (l : list string) :
  l <> [] ->
  Py.join sep (Py.cons_head c l) = String c (Py.join sep l).
Proof. destruct l as [|h [|y t]]; [congruence | reflexivity | reflexivity]. Qed.

Lemma join_split (d : ascii) (s : string) :
  Py.join (String d "") (Py.split (String d "") None s) = s.
Proof.
  induction s as [|c s IH]; [reflexivity|].
  rewrite split_char_cons.
  pose proof (split_not_nil (String d "") None s) as Hne.
  destruct (Ascii.eqb_spec d c) as [->|].
  - destruct (Py.split (String c "") None s) as [|y l]; [congruence|].
    rewrite join_cons2, IH. reflexivity.
  - rewrite join_cons_head by exact Hne. now rewrite IH.
Qed.

Lemma cons_head_app (c : ascii) (l m : list string) :
  l <> [] -> (Py.cons_head c (l ++ m) = Py.cons_head c l ++ m)%list.
Proof. now destruct l. Qed.

(** Splitting a string cut at a separator. *)
Lemma split_app_sep (d : ascii) (a b : string) :
  Py.split (String d "") None (a ++ String d b) =
  (Py.split (String d "") None a ++ Py.split (String d "") None b)%list.
Proof.
  induction a as [|c a IH].
  - cbn [append]. now rewrite split_char_cons, Ascii.eqb_refl.
  - cbn [append]. rewrite !split_char_cons, IH.
    destruct (Ascii.eqb d c); [reflexivity|].
    apply cons_head_app, split_not_nil.
Qed.

Lemma join_snoc (sep f : string) (m : list string) :
  m <> [] -> Py.join sep (m ++ [f]) = Py.join sep m ++ sep ++ f.
Proof.
  induction m as [|x m IH]; [congruence|]. intros _.
  destruct m as [|y m]; [reflexivity|].
  change ((x :: y :: m) ++ [f])%list with (x :: (y :: m) ++ [f])%list.
  cbn [app]. rewrite !join_cons2.
  change (y :: (m ++ [f])%list) with ((y :: m) ++ [f])%list.
  rewrite IH by discriminate. now rewrite !append_assoc.
Qed.

Lemma replace_space_char_free (d : ascii) (s : string) :
  Py.char_in d "%20" = false ->
  Py.char_in d s = false ->
  Py.char_in d (Py.replace " " "%20" s) = false.
Proof.
  intros Hd. induction s as [|c s IH]; [reflexivity|].
  cbn [Py.char_in]. intros H. apply orb_false_iff in H as [Hc Hs].
  rewrite replace_space_cons, char_in_app, (IH Hs), orb_false_r.
  destruct (Ascii.eqb c " "); [exact Hd|].
  cbn [Py.char_in]. now rewrite Hc.
Qed.

Lemma split_encode_path (path : string) :
  Py.split "/" None (Common.encode_path path) =
  map (Py.replace " " "%20") (Py.split "/" None path).
Proof.
  induction path as [|c path IH]; [reflexivity|].
  rewrite encode_path_cons, split_char_cons.
  pose proof (split_not_nil "/" None path) as Hne.
  destruct (Ascii.eqb_spec c " ") as [->|Hsp].
  - cbn [Ascii.eqb Bool.eqb andb append]. rewrite !split_char_cons.
    cbn [Ascii.eqb Bool.eqb andb]. rewrite IH.
    destruct (Py.split "/" None path) as [|h t]; [congruence|].
    cbn [map Py.cons_head]. now rewrite replace_space_cons.
  - cbn [append]. rewrite split_char_cons, IH.
    destruct (Ascii.eqb "/" c); [reflexivity|].
    destruct (Py.split "/" None path) as [|h t]; [congruence|].
    cbn [map Py.cons_head]. rewrite replace_space_cons.
    apply Ascii.eqb_neq in Hsp. now rewrite Hsp.
Qed.

End SplitJoin.

(** X3. Encoding keeps the structure of the path: the encoded path has
    the segments of the path, each with its spaces replaced, so it has as
    many segments and no segment gains or loses a ['/']. *)
Theorem encode_path_keeps_segments :
  forall path,
    segments (Common.encode_path path) =
    map (Py.replace " " "%20") (segments path) /\
    length (segments (Common.encode_path path)) = length (segments path).
Proof.
  intros path. unfold segments. rewrite split_encode_path. split.
  - reflexivity.
  - apply length_map.
Qed.

(** ** The fixed three-level decomposer ([link-list.py]) *)

Section ThreeLevels.

Lemma getlast_snoc {A : Type} (l : list A) (a : A) :
  Py.getlast (l ++ [a]) = Ok a.
Proof. unfold Py.getlast. now rewrite rev_unit. Qed.

Lemma os_segments_snoc (os : platform) (path : string) :
  exists folders filename,
    os_segments os path = (folders ++ [filename])%list.
Proof.
  pose proof (split_not_nil (LinkList.os_sep os) None path) as Hne.
  unfold os_segments.
  destruct (exists_last Hne) as (folders & filename & ->).
  now exists folders, filename.
Qed.

Lemma three_levels_row (os : platform) (path : string)
    (folders : list string) (filename : string) :
  os_segments os path = (folders ++ [filename])%list ->
  LinkList.row_from_path os path =
  Ok [nth 0 folders ""; nth 1 folders "";
      Py.join (LinkList.os_sep os) (skipn 2 folders); filename].
Proof.
  intros E. unfold LinkList.row_from_path. cbv zeta.
  unfold os_segments in E. rewrite E.
  rewrite getlast_snoc, removelast_last.
  destruct folders as [|a [|b [|c l]]]; reflexivity.
Qed.

Lemma os_segment_char_free (os : platform) (path seg : string) (i : nat) :
  nth_error (os_segments os path) i = Some seg ->
  Py.char_in (LinkList.os_sep_char os) seg = false.
Proof.
  intros H. apply nth_error_In in H.
  pose proof (split_parts_char_free (LinkList.os_sep_char os) path) as Hall.
  rewrite Forall_forall in Hall. now apply Hall.
Qed.

(** A path that holds no [os.sep] is one single part. *)
Lemma three_levels_row_one_part (os : platform) (path : string) :
  Py.char_in (LinkList.os_sep_char os) path = false ->
  LinkList.row_from_path os path = Ok [""; ""; ""; path].
Proof.
  intros Hfree. apply (three_levels_row os path []).
  unfold os_segments, LinkList.os_sep. now apply split_char_free.
Qed.

End ThreeLevels.

(** X4. [row_from_path] of [link-list.py] never raises.  With the parts
    of the path, cut at [os.sep], read as folders followed by a file
    name, the row is the first folder, the second folder, the remaining
    folders joined with [os.sep], and the file name; a missing folder
    gives an empty column, and the file name column holds no [os.sep].
    On Windows, a path written with ['/'] only is one single part: the
    three folder columns are empty and the last column is the whole
    path. *)
Theorem three_levels_row_spec :
  (forall os path,
     exists folders filename,
       os_segments os path = (folders ++ [filename])%list /\
       LinkList.row_from_path os path =
       Ok [nth 0 folders ""; nth 1 folders "";
           Py.join (LinkList.os_sep os) (skipn 2 folders); filename] /\
       Py.char_in (LinkList.os_sep_char os) filename = false) /\
  (forall path,
     Py.char_in (LinkList.os_sep_char Windows) path = false ->
     LinkList.row_from_path Windows path = Ok [""; ""; ""; path]).
Proof.
  split.
  - intros os path.
    destruct (os_segments_snoc os path) as (folders & filename & E).
    exists folders, filename. split; [exact E|]. split.
    + now apply three_levels_row.
    + apply (os_segment_char_free os path filename (length folders)).
      rewrite E, nth_error_app2, Nat.sub_diag by lia. reflexivity.
  - intros path. apply three_levels_row_one_part.
Qed.

Lemma three_levels_row_spec_witness :
  LinkList.row_from_path Windows "Oplah/M3/1. D.I Foo/a.png"
  = Ok [""; ""; ""; "Oplah/M3/1. D.I Foo/a.png"].
Proof.
  apply (proj2 three_levels_row_spec "Oplah/M3/1. D.I Foo/a.png").
  reflexivity.
Defined.

(** X5. On a path of at least 4 parts, cut at [os.sep], the row of
    [link-list.py] loses nothing: its four columns joined with [os.sep]
    are the path. *)
Theorem three_levels_row_round_trip :
  forall os path row,
    4 <= length (os_segments os path) ->
    LinkList.row_from_path os path = Ok row ->
    Py.join (LinkList.os_sep os) row = path.
Proof.
  intros os path row Hlen Hrow.
  destruct (os_segments_snoc os path) as (folders & filename & E).
  rewrite (three_levels_row _ _ _ _ E) in Hrow. injection Hrow as <-.
  rewrite <- (join_split (LinkList.os_sep_char os) path).
  change (Py.split (String (LinkList.os_sep_char os) "") None path)
    with (os_segments os path).
  change (String (LinkList.os_sep_char os) "") with (LinkList.os_sep os).
  rewrite E. rewrite E, length_app in Hlen. cbn [length] in Hlen.
  set (sep := LinkList.os_sep os).
  destruct folders as [|a [|b [|c l]]]; cbn [length] in Hlen; try lia.
  cbn [nth skipn].
  change ((a :: b :: c :: l) ++ [filename])%list
    with (a :: b :: ((c :: l) ++ [filename]))%list.
  destruct ((c :: l) ++ [filename])%list as [|x t] eqn:Hx;
    [discriminate|]. rewrite <- Hx.
  assert (Py.join sep (a :: b :: (c :: l) ++ [filename])%list
          = a ++ sep ++ b ++ sep ++ Py.join sep ((c :: l) ++ [filename])%list)
    as ->.
  { rewrite Hx. reflexivity. }
  rewrite join_snoc by discriminate. reflexivity.
Qed.

Lemma three_levels_row_round_trip_witness :
  Py.join (LinkList.os_sep Posix) ["Oplah"; "M3"; "1. D.I Foo/sub"; "a.png"]
  = "Oplah/M3/1. D.I Foo/sub/a.png".
Proof.
  apply (three_levels_row_round_trip Posix "Oplah/M3/1. D.I Foo/sub/a.png").
  - vm_compute. lia.
  - reflexivity.
Defined.

(** ** The decomposers never lose track of the path *)

Section Decomposers.

Lemma trimmed_char_free (c : ascii) (x t : string) :
  trimmed x t -> Py.char_in c x = false -> Py.char_in c t = false.
Proof.
  intros [(w1 & w2 & -> & _) _] H.
  rewrite !char_in_app in H.
  apply orb_false_iff in H as [_ H]. now apply orb_false_iff in H as [H _].
Qed.

Lemma segments_not_nil (path : string) : segments path <> [].
Proof. apply split_not_nil. Qed.

End Decomposers.

(** X6. [row_from_path] of [link-list-new.py] never raises, whatever the
    depth of the path: its first two columns are the first two segments
    (the second one empty on a path of one segment), its sub-unit column
    holds no ['/'] and is empty or begins with ["D.I"], and its last column
    is ["./"] followed by the whole path. *)
Theorem marker_search_row_total :
  forall path,
    exists d,
      LinkListNew.row_from_path path =
      Ok [nth 0 (segments path) ""; nth 1 (segments path) ""; d;
          "./" ++ path] /\
      Py.char_in "/" d = false /\
      (d = "" \/ exists r, d = "D.I" ++ r).
Proof.
  intros path. rewrite row_from_path_unfold.
  destruct (nth_error (segments path) 2) as [seg|] eqn:Hseg.
  - pose proof (segment_char_free _ _ _ Hseg) as Hfree.
    destruct (Py.contains "D.I" seg) eqn:Hc.
    + destruct (di_name_of_found _ _ Hseg Hfree Hc)
        as (p & r & [E _] & ->).
      eexists. split; [reflexivity|]. split.
      * apply (trimmed_char_free _ _ _ (strip_trimmed _)).
        rewrite E, char_in_app in Hfree.
        now apply orb_false_iff in Hfree.
      * right. cbn [append]. rewrite strip_keeps_head by reflexivity.
        rewrite !rstrip_by_keeps_head by reflexivity. now eexists.
    + rewrite (di_name_of_absent _ _ Hseg Hc).
      exists "". repeat split. now left.
  - apply nth_error_None in Hseg. rewrite (di_name_of_short _ Hseg).
    exists "". repeat split. now left.
Qed.

(** X7. [parse_path_info] raises [IndexError] exactly on the paths that,
    once a leading ["./"] is stripped, have fewer than 2 segments (no
    ['/'] left); on every other path it returns, its project column is the
    first of these segments and its last column is the path as given. *)
Theorem parse_path_info_domain :
  forall path,
    (length (segments (without_marker path)) < 2 ->
     LinkListV2.parse_path_info path = Raise IndexError) /\
    (2 <= length (segments (without_marker path)) ->
     exists a b d,
       LinkListV2.parse_path_info path = Ok (a, b, d, path) /\
       nth_error (segments (without_marker path)) 0 = Some a).
Proof.
  intros path. rewrite parse_path_info_unfold. split; intros Hlen.
  - destruct (effective_parts_without_marker path) as [->|[-> ->]];
      [|reflexivity].
    pose proof (segments_not_nil (without_marker path)) as Hne.
    destruct (segments (without_marker path)) as [|a [|b l]];
      [congruence | reflexivity | cbn [length] in Hlen; lia].
  - destruct (effective_parts_without_marker path) as [->|[-> _]];
      [|cbn in Hlen; lia].
    destruct (segments (without_marker path)) as [|a [|b [|c [|d l]]]];
      cbn [length] in Hlen; try lia.
    + now exists a, "", "".
    + now exists a, b, "".
    + destruct (clean_folder_name_total c) as [r ->]. now exists a, b, r.
Qed.

Lemma parse_path_info_domain_witness :
  LinkListV2.parse_path_info "./a.png" = Raise IndexError /\
  (exists a b d,
     LinkListV2.parse_path_info "./Oplah/M3/1. D.I Foo/sub/a.png"
     = Ok (a, b, d, "./Oplah/M3/1. D.I Foo/sub/a.png") /\
     nth_error (segments (without_marker "./Oplah/M3/1. D.I Foo/sub/a.png")) 0
     = Some a).
Proof.
  split.
  - apply (proj1 (parse_path_info_domain "./a.png")). vm_compute. lia.
  - apply (proj2 (parse_path_info_domain "./Oplah/M3/1. D.I Foo/sub/a.png")).
    vm_compute. lia.
Defined.

(** X8. [clean_folder_name] never raises and only ever removes a prefix:
    its result is a suffix of the name, and what it removes, if anything,
    ends with [". "] and comes from a name that starts with a digit. *)
Theorem clean_folder_name_suffix :
  forall name,
    exists p r,
      LinkListV2.clean_folder_name name = Ok r /\
      name = p ++ r /\
      (p = "" \/ (starts_with_digit name /\ exists q, p = q ++ ". ")).
Proof.
  intros name.
  destruct (Py.contains ". " name) eqn:Hin.
  - destruct name as [|c s']; [discriminate|].
    destruct (Py.isdigit c) eqn:Hdigit.
    + assert (starts_with_digit (String c s')) as Hstart
          by now exists c, s'.
      destruct (clean_folder_name_numbered (String c s') Hstart
                  (contains_occurs _ _ Hin)) as (q & r & [E _] & Hr).
      exists (q ++ ". "), r. split; [exact Hr|]. split.
      * now rewrite append_assoc.
      * right. split; [exact Hstart | now exists q].
    + exists "", (String c s'). split; [|split; [reflexivity | now left]].
      apply clean_folder_name_plain.
      intros [(c' & s'' & [= <- <-] & Hd) _]. congruence.
  - exists "", name. split; [|split; [reflexivity | now left]].
    apply clean_folder_name_plain.
    intros [_ Hocc]. apply occurs_contains in Hocc. congruence.
Qed.

(** ** The owner and the repository of a remote *)

Section RemoteShapes.

Lemma rstrip_by_app_keep (p : ascii -> bool) (a b : string) (c : ascii) :
  p c = false ->
  Py.rstrip_by p (a ++ String c b) = a ++ String c (Py.rstrip_by p b).
Proof.
  intros Hc. induction a as [|x a IH].
  - now apply rstrip_by_keeps_head.
  - cbn [append Py.rstrip_by]. rewrite IH. now destruct a.
Qed.

Lemma rstrip_by_all (p : ascii -> bool) (w : string) :
  all_chars p w = true -> Py.rstrip_by p w = "".
Proof.
  induction w as [|x w IH]; [reflexivity|].
  cbn [all_chars Py.rstrip_by]. intros H.
  apply andb_true_iff in H as [Hx Hw]. now rewrite (IH Hw), Hx.
Qed.

Lemma rstrip_by_app_drop (p : ascii -> bool) (a w : string) :
  all_chars p w = true ->
  Py.rstrip_by p (a ++ w) = Py.rstrip_by p a.
Proof.
  intros Hw. induction a as [|x a IH].
  - cbn [append]. now rewrite rstrip_by_all.
  - cbn [append Py.rstrip_by]. now rewrite IH.
Qed.

Lemma rstrip_by_char_free (p : ascii -> bool) (d : ascii) (y : string) :
  Py.char_in d y = false -> Py.char_in d (Py.rstrip_by p y) = false.
Proof.
  intros H. destruct (rstrip_by_spec p y) as [(w & E & _) _].
  rewrite E, char_in_app in H. now apply orb_false_iff in H.
Qed.

(** The name is kept whole when its last character is none of ['.'],
    ['g'], ['i'], ['t'], with the suffix [".git"] or without it. *)
Lemma rstrip_git_exact (r : string) (c : ascii) :
  Py.char_in c ".git" = false ->
  Py.rstrip ".git" (r ++ String c "") = r ++ String c "" /\
  Py.rstrip ".git" ((r ++ String c "") ++ ".git") = r ++ String c "".
Proof.
  intros Hc. unfold Py.rstrip.
  assert (Py.rstrip_by (fun c0 => Py.char_in c0 ".git") (r ++ String c "")
          = r ++ String c "") as E
      by now rewrite rstrip_by_app_keep.
  split; [exact E|]. now rewrite rstrip_by_app_drop.
Qed.

Lemma prefix_app_long (p a b : string) :
  String.length p <= String.length a -> prefix p (a ++ b) = prefix p a.
Proof.
  revert a. induction p as [|x p IH]; intros a Hlen.
  - now rewrite !prefix_nil.
  - destruct a as [|y a]; [cbn in Hlen; lia|].
    cbn [append]. rewrite !prefix_cons, IH; [reflexivity|].
    cbn [String.length] in Hlen. lia.
Qed.

Lemma owner_repo_https (owner repo : string) :
  Py.char_in "/" owner = false ->
  Py.char_in "/" repo = false ->
  Common.owner_repo_of_remote ("https://github.com/" ++ owner ++ "/" ++ repo)
  = Ok (owner, Py.rstrip ".git" repo).
Proof.
  intros Howner Hrepo. unfold Common.owner_repo_of_remote.
  rewrite (occurs_contains "github.com")
    by (exists "https://", ("/" ++ owner ++ "/" ++ repo); reflexivity).
  cbn [negb].
  replace (Py.startswith ("https://github.com/" ++ owner ++ "/" ++ repo)
             "https") with true by reflexivity.
  unfold Py.rstrip.
  change ("https://github.com/" ++ owner ++ "/" ++ repo)
    with (("https://github.com/" ++ owner) ++ String "/" repo).
  rewrite rstrip_by_app_keep by reflexivity.
  pose proof (rstrip_by_char_free (fun c => Py.char_in c ".git") "/" repo Hrepo)
    as Hrepo'.
  set (repo' := Py.rstrip_by (fun c => Py.char_in c ".git") repo) in *.
  change (("https://github.com/" ++ owner) ++ String "/" repo')
    with ("https:" ++ String "/"
            ("" ++ String "/" ("github.com" ++ String "/"
                                 (owner ++ String "/" repo')))).
  rewrite !split_app_sep.
  rewrite (split_char_free "/" owner Howner).
  rewrite (split_char_free "/" repo' Hrepo').
  reflexivity.
Qed.

Lemma owner_repo_ssh (user owner repo : string) :
  Py.startswith (user ++ "@github.com:" ++ owner ++ "/" ++ repo) "https"
    = false ->
  Py.char_in ":" user = false ->
  Py.char_in ":" owner = false -> Py.char_in ":" repo = false ->
  Py.char_in "/" owner = false -> Py.char_in "/" repo = false ->
  Common.owner_repo_of_remote
    (user ++ "@github.com:" ++ owner ++ "/" ++ repo)
  = Ok (owner, Py.rstrip ".git" repo).
Proof.
  intros Hstart Hu Ho Hr Howner Hrepo. unfold Common.owner_repo_of_remote.
  rewrite (occurs_contains "github.com").
  2:{ exists (user ++ "@"), (":" ++ owner ++ "/" ++ repo).
      now rewrite append_assoc. }
  cbn [negb]. rewrite Hstart.
  change (user ++ "@github.com:" ++ owner ++ "/" ++ repo)
    with (user ++ "@github.com" ++ String ":" (owner ++ String "/" repo)).
  rewrite <- append_assoc, split_app_sep.
  rewrite (split_char_free ":" (user ++ "@github.com"))
    by (rewrite char_in_app, Hu; reflexivity).
  rewrite (split_char_free ":" (owner ++ String "/" repo))
    by (rewrite char_in_app, Ho; cbn [Py.char_in]; now rewrite Hr).
  cbn [app]. unfold Py.rstrip.
  rewrite rstrip_by_app_keep by reflexivity.
  pose proof (rstrip_by_char_free (fun c => Py.char_in c ".git") "/" repo Hrepo)
    as Hrepo'.
  set (repo' := Py.rstrip_by (fun c => Py.char_in c ".git") repo) in *.
  rewrite split_app_sep, (split_char_free "/" owner Howner).
  rewrite (split_char_free "/" repo' Hrepo').
  reflexivity.
Qed.

End RemoteShapes.

(** X9. On an HTTPS remote [https://github.com/<owner>/<repo>], with
    owner and repo free of ['/'], the parsing step returns the owner and
    the repo stripped on the right of every ['.'], ['g'], ['i'] and ['t'].
    When the repo name ends with another character, the result is exactly
    [(owner, repo)], with the suffix [".git"] or without it. *)
Theorem https_remote_owner_repo :
  forall owner repo,
    Py.char_in "/" owner = false ->
    Py.char_in "/" repo = false ->
    Common.owner_repo_of_remote
      ("https://github.com/" ++ owner ++ "/" ++ repo)
    = Ok (owner, Py.rstrip ".git" repo) /\
    (forall r c,
       repo = r ++ String c "" -> Py.char_in c ".git" = false ->
       Common.owner_repo_of_remote
         ("https://github.com/" ++ owner ++ "/" ++ repo)
       = Ok (owner, repo) /\
       Common.owner_repo_of_remote
         ("https://github.com/" ++ owner ++ "/" ++ repo ++ ".git")
       = Ok (owner, repo)).
Proof.
  intros owner repo Howner Hrepo. split.
  - now apply owner_repo_https.
  - intros r c -> Hc. destruct (rstrip_git_exact r c Hc) as [E1 E2]. split.
    + rewrite owner_repo_https by assumption. now rewrite E1.
    + rewrite owner_repo_https; [now rewrite E2 | assumption |].
      rewrite char_in_app, Hrepo. reflexivity.
Qed.

Lemma https_remote_owner_repo_witness :
  Common.owner_repo_of_remote "https://github.com/bimwaskita/OPLAH-WSKT"
  = Ok ("bimwaskita", "OPLAH-WSKT") /\
  Common.owner_repo_of_remote "https://github.com/bimwaskita/OPLAH-WSKT.git"
  = Ok ("bimwaskita", "OPLAH-WSKT").
Proof.
  apply (proj2 (https_remote_owner_repo "bimwaskita" "OPLAH-WSKT"
                  eq_refl eq_refl) "OPLAH-WSK" "T"%char);
    reflexivity.
Defined.

(** X10. On an SSH remote [<user>@github.com:<owner>/<repo>] that does
    not start with ["https"], with user, owner and repo free of [':'] and
    owner and repo free of ['/'], the parsing step returns the owner and
    the repo stripped on the right of every ['.'], ['g'], ['i'] and ['t'].
    When the repo name ends with another character, the result is exactly
    [(owner, repo)], with the suffix [".git"] or without it. *)
Theorem ssh_remote_owner_repo :
  forall user owner repo,
    Py.startswith (user ++ "@github.com:" ++ owner ++ "/" ++ repo) "https"
      = false ->
    Py.char_in ":" user = false ->
    Py.char_in ":" owner = false -> Py.char_in ":" repo = false ->
    Py.char_in "/" owner = false -> Py.char_in "/" repo = false ->
    Common.owner_repo_of_remote
      (user ++ "@github.com:" ++ owner ++ "/" ++ repo)
    = Ok (owner, Py.rstrip ".git" repo) /\
    (forall r c,
       repo = r ++ String c "" -> Py.char_in c ".git" = false ->
       Common.owner_repo_of_remote
         (user ++ "@github.com:" ++ owner ++ "/" ++ repo)
       = Ok (owner, repo) /\
       Common.owner_repo_of_remote
         (user ++ "@github.com:" ++ owner ++ "/" ++ repo ++ ".git")
       = Ok (owner, repo)).
Proof.
  intros user owner repo Hstart Hu Ho Hr Howner Hrepo. split.
  - now apply owner_repo_ssh.
  - intros r c -> Hc. destruct (rstrip_git_exact r c Hc) as [E1 E2]. split.
    + rewrite owner_repo_ssh by assumption. now rewrite E1.
    + rewrite owner_repo_ssh; try assumption.
      * now rewrite E2.
      * unfold Py.startswith in *.
        assert (forall rest,
                   prefix "https" (user ++ "@github.com:" ++ rest)
                   = prefix "https" (user ++ "@github.com:")) as Hp.
        { intros rest. rewrite <- (append_assoc user "@github.com:" rest).
          apply prefix_app_long. rewrite append_length.
          cbn [String.length]. lia. }
        rewrite Hp in Hstart. rewrite Hp. exact Hstart.
      * rewrite char_in_app, Hr. reflexivity.
      * rewrite char_in_app, Hrepo. reflexivity.
Qed.

Lemma ssh_remote_owner_repo_witness :
  Common.owner_repo_of_remote "git@github.com:bimwaskita/OPLAH-WSKT"
  = Ok ("bimwaskita", "OPLAH-WSKT") /\
  Common.owner_repo_of_remote "git@github.com:bimwaskita/OPLAH-WSKT.git"
  = Ok ("bimwaskita", "OPLAH-WSKT").
Proof.
  apply (proj2 (ssh_remote_owner_repo "git" "bimwaskita" "OPLAH-WSKT"
                  eq_refl eq_refl eq_refl eq_refl eq_refl eq_refl)
           "OPLAH-WSK" "T"%char);
    reflexivity.
Defined.

(** ** What a run of [link-list-v2.py] can end in *)

Section MainOutcomes.

Lemma owner_repo_of_remote_raises (remote : string) (e : exn) :
  Common.owner_repo_of_remote remote = Raise e -> e = ValueError.
Proof.
  unfold Common.owner_repo_of_remote.
  repeat match goal with
         | |- context [match ?x with _ => _ end] => destruct x
         | |- context [if ?x then _ else _] => destruct x
         end; congruence.
Qed.

(** What the [except] clause of [get_git_info] lets through. *)
Lemma except_called_process_error {A : Type} (body : result A) (e : exn) :
  match body with
  | Raise CalledProcessError => Raise ValueError
  | r => r
  end = Raise e ->
  (body = Raise CalledProcessError /\ e = ValueError) \/
  (body = Raise e /\ e <> CalledProcessError).
Proof.
  destruct body as [a|[| | | |name]]; intros [= <-];
    (now left) || (right; split; [reflexivity | discriminate]).
Qed.

Lemma get_git_info_raises (w : world) (e : exn) :
  Common.get_git_info w = Raise e ->
  e = ValueError \/
  (e <> CalledProcessError /\
   (check_output (git_remote_origin_url w) = Raise e \/
    check_output (git_abbrev_ref_head w) = Raise e)).
Proof.
  unfold Common.get_git_info. intros H.
  apply except_called_process_error in H as [[_ ->]|[H Hne]]; [now left|].
  destruct (check_output (git_remote_origin_url w)) as [out|e1];
    cbn [bind] in H.
  - destruct (Common.owner_repo_of_remote (Py.strip out)) as [[o r]|e2] eqn:E;
      cbn [bind] in H.
    + destruct (check_output (git_abbrev_ref_head w)) as [out'|e3];
        cbn [bind] in H; [discriminate|].
      injection H as ->. right. split; [exact Hne | now right].
    + apply owner_repo_of_remote_raises in E. subst e2.
      injection H as <-. now left.
  - injection H as ->. right. split; [exact Hne | now left].
Qed.

Lemma resolve_remote_raises (w : world) (e : exn) :
  LinkListV2.resolve_remote w = Raise e ->
  e <> ValueError /\ e <> CalledProcessError /\
  (check_output (git_remote_origin_url w) = Raise e \/
   check_output (git_abbrev_ref_head w) = Raise e).
Proof.
  unfold LinkListV2.resolve_remote.
  destruct (Common.get_git_info w) as [info|e0] eqn:E; [discriminate|].
  intros H.
  assert (e0 = e /\ e <> ValueError) as [-> Hne]
      by (destruct e0; cbn in H; try discriminate H; injection H as <-;
          (split; [reflexivity | discriminate])).
  apply get_git_info_raises in E as [->|[Hc Hgit]]; [congruence|].
  now repeat split.
Qed.

Lemma row_of_shape (remote : option (string * string * string))
    (path : string) (row : list string) :
  LinkListV2.row_of remote path = Ok row ->
  length row = 5 /\ nth 3 row "" = path /\
  nth 4 row "" =
  match remote with
  | Some (owner, repo, branch) =>
      if Py.truthy owner && Py.truthy repo && Py.truthy branch
      then LinkListV2.make_github_url owner repo branch path
      else ""
  | None => ""
  end.
Proof.
  unfold LinkListV2.row_of.
  destruct (LinkListV2.parse_path_info path) as [[[[a b] d] n]|e] eqn:E;
    [|discriminate].
  cbn [bind]. intros [= <-].
  rewrite parse_path_info_unfold in E.
  assert (n = path) as ->.
  { destruct (effective_parts path) as [|x [|y [|z [|u l]]]];
      try discriminate; try congruence.
    destruct (LinkListV2.clean_folder_name z); cbn [bind] in E; congruence. }
  now repeat split.
Qed.

Lemma write_rows_total (remote : option (string * string * string))
    (files : list string) :
  Forall is_dot_path files ->
  exists rows,
    LinkListV2.write_rows remote files = Ok rows /\
    Forall2 (fun path row => LinkListV2.row_of remote path = Ok row)
      files rows.
Proof.
  induction 1 as [|path files Hpath _ (rows & E & Hrows)].
  - exists []. now split.
  - destruct (parse_path_info_dot_path _ Hpath) as (a & b & d & Ep).
    assert (exists row, LinkListV2.row_of remote path = Ok row) as [row Er].
    { unfold LinkListV2.row_of. rewrite Ep. cbn [bind]. now eexists. }
    exists (row :: rows). split.
    + cbn [LinkListV2.write_rows]. now rewrite Er, E.
    + now constructor.
Qed.

Lemma rows_of_files (remote : option (string * string * string))
    (files : list string) (rows : list (list string)) :
  Forall2 (fun path row => LinkListV2.row_of remote path = Ok row)
    files rows ->
  map (fun row => nth 3 row "") rows = files /\
  Forall (fun row => length row = 5) rows /\
  Forall
    (fun row =>
       nth 4 row "" =
       match remote with
       | Some (owner, repo, branch) =>
           if Py.truthy owner && Py.truthy repo && Py.truthy branch
           then LinkListV2.make_github_url owner repo branch (nth 3 row "")
           else ""
       | None => ""
       end) rows.
Proof.
  induction 1 as [|path row files rows Hrow _ (Hmap & Hlen & Hurl)].
  - now repeat split.
  - apply row_of_shape in Hrow as (H5 & H3 & H4). repeat split.
    + cbn [map]. now rewrite H3, Hmap.
    + now constructor.
    + constructor; [now rewrite H3 | exact Hurl].
Qed.

(** The outcome of [main], once the files are collected and the remote
    is resolved. *)
Lemma main_after_remote (w : world) (argv files : list string)
    (remote : option (string * string * string)) :
  LinkListV2.collect_files w argv = inr files ->
  LinkListV2.resolve_remote w = Ok remote ->
  (files = [] /\ LinkListV2.main w argv = Ok (LinkListV2.Exit 0%Z None)) \/
  (files <> [] /\
   exists rows,
     LinkListV2.main w argv
     = Ok (LinkListV2.Exit 0%Z (Some (LinkListV2.header :: rows))) /\
     Forall2 (fun path row => LinkListV2.row_of remote path = Ok row)
       files rows).
Proof.
  intros Hfiles Hremote. unfold LinkListV2.main.
  rewrite Hfiles, Hremote. cbn [bind].
  destruct (write_rows_total remote files
              (collect_files_dot_paths _ _ _ Hfiles)) as (rows & E & Hrows).
  destruct files as [|f files]; [now left|].
  right. split; [discriminate|]. exists rows. now rewrite E.
Qed.

End MainOutcomes.

(** X11. In [link-list-v2.py], what a run computes raises nothing of
    its own.  On every path [main] builds, and whatever the remote, the
    turn of the loop computes a row of five columns: [parse_path_info]
    does not raise there.  And the resolution of the remote lets through
    only what [subprocess.check_output] itself raised, other than
    [CalledProcessError] and [ValueError] (the [FileNotFoundError] of a
    missing [git], for one): a remote that cannot be parsed ends in the
    [ValueError] that [main] recovers from. *)
Theorem main_computation_never_raises :
  forall w argv files,
    LinkListV2.collect_files w argv = inr files ->
    (forall remote,
       Forall
         (fun path =>
            exists row,
              LinkListV2.row_of remote path = Ok row /\ length row = 5)
         files) /\
    (forall e,
       LinkListV2.resolve_remote w = Raise e ->
       e <> ValueError /\ e <> CalledProcessError /\
       (check_output (git_remote_origin_url w) = Raise e \/
        check_output (git_abbrev_ref_head w) = Raise e)).
Proof.
  intros w argv files Hfiles. split.
  - intros remote.
    pose proof (collect_files_dot_paths _ _ _ Hfiles) as Hdot.
    revert Hdot. apply Forall_impl. intros path Hpath.
    destruct (parse_path_info_dot_path _ Hpath) as (a & b & d & Ep).
    unfold LinkListV2.row_of. rewrite Ep. cbn [bind].
    eexists. split; reflexivity.
  - intros e. apply resolve_remote_raises.
Qed.

Lemma main_computation_never_raises_witness :
  (forall remote,
     Forall
       (fun path =>
          exists row,
            LinkListV2.row_of remote path = Ok row /\ length row = 5)
       ["./Proj/M3/1. D.I Foo/img.png"]) /\
  (forall e,
     LinkListV2.resolve_remote proj_world_without_git = Raise e ->
     e <> ValueError /\ e <> CalledProcessError /\
     (check_output (git_remote_origin_url proj_world_without_git) = Raise e
      \/
      check_output (git_abbrev_ref_head proj_world_without_git) = Raise e)).
Proof.
  apply (main_computation_never_raises proj_world_without_git ["Proj"]).
  reflexivity.
Defined.

(** X12. When a run of [link-list-v2.py] writes [images.csv], it exits
    with code 0 and the file holds the header and one row of five columns
    per collected path, in the order of the paths; the fourth column of a
    row is its path, which begins with ["./"]. *)
Theorem main_rows_follow_files :
  forall w argv code csv,
    LinkListV2.main w argv = Ok (LinkListV2.Exit code (Some csv)) ->
    code = 0%Z /\
    exists files rows,
      LinkListV2.collect_files w argv = inr files /\
      csv = LinkListV2.header :: rows /\
      map (fun row => nth 3 row "") rows = files /\
      Forall (fun row => length row = 5) rows /\
      Forall (fun row => Py.startswith (nth 3 row "") "./" = true) rows.
Proof.
  intros w argv code csv Hmain.
  destruct (LinkListV2.collect_files w argv) as [c|files] eqn:Hfiles.
  - unfold LinkListV2.main in Hmain. rewrite Hfiles in Hmain. discriminate.
  - destruct (LinkListV2.resolve_remote w) as [remote|e0] eqn:Hremote.
    + destruct (main_after_remote _ _ _ _ Hfiles Hremote)
        as [[_ E]|[_ (rows & E & Hrows)]];
        rewrite E in Hmain; [discriminate|].
      injection Hmain as <- <-. split; [reflexivity|].
      exists files, rows.
      destruct (rows_of_files _ _ _ Hrows) as (Hmap & Hlen & _).
      repeat split; try assumption.
      pose proof (collect_files_dot_paths _ _ _ Hfiles) as Hdot.
      rewrite <- Hmap, Forall_map in Hdot.
      revert Hdot. apply Forall_impl. intros row (folder & f & ->).
      apply (prefix_app "./" (folder ++ "/" ++ f)).
    + unfold LinkListV2.main in Hmain. rewrite Hfiles, Hremote in Hmain.
      discriminate.
Qed.

Lemma main_rows_follow_files_witness :
  0%Z = 0%Z /\
  exists files rows,
    LinkListV2.collect_files proj_world ["Proj"] = inr files /\
    [LinkListV2.header;
     ["Proj"; "M3"; "D.I Foo"; "./Proj/M3/1. D.I Foo/img.png";
      "https://raw.githubusercontent.com/o/r/refs/heads/main/./Proj/M3/1.%20D.I%20Foo/img.png"]]
    = LinkListV2.header :: rows /\
    map (fun row => nth 3 row "") rows = files /\
    Forall (fun row => length row = 5) rows /\
    Forall (fun row => Py.startswith (nth 3 row "") "./" = true) rows.
Proof.
  apply (main_rows_follow_files proj_world ["Proj"]). reflexivity.
Defined.

Section MainExit.

Lemma collect_files_early_exit (w : world) (argv : list string) (code : Z) :
  LinkListV2.collect_files w argv = inl code ->
  (code = 1%Z /\ argv = [] /\ scan_current_directory w = []) \/
  (code = 2%Z /\ exists f rest, argv = f :: rest /\ isdir w f = false).
Proof.
  unfold LinkListV2.collect_files. destruct argv as [|f rest].
  - destruct (scan_current_directory w); [|discriminate].
    intros [= <-]. now left.
  - destruct (isdir w f) eqn:Hdir; [discriminate|].
    intros [= <-]. right. split; [reflexivity|]. now exists f, rest.
Qed.

Lemma main_rows_of_remote (w : world) (argv : list string)
    (remote : option (string * string * string)) (code : Z)
    (csv : list (list string)) :
  LinkListV2.resolve_remote w = Ok remote ->
  LinkListV2.main w argv = Ok (LinkListV2.Exit code (Some csv)) ->
  exists files,
    Forall2 (fun path row => LinkListV2.row_of remote path = Ok row)
      files (tl csv).
Proof.
  intros Hremote Hmain.
  destruct (LinkListV2.collect_files w argv) as [c|files] eqn:Hfiles.
  - unfold LinkListV2.main in Hmain. rewrite Hfiles in Hmain. discriminate.
  - destruct (main_after_remote _ _ _ _ Hfiles Hremote)
      as [[_ E]|[_ (rows & E & Hrows)]];
      rewrite E in Hmain; [discriminate|].
    injection Hmain as <- <-. now exists files.
Qed.

End MainExit.

(** X13. The exit codes of a run of [link-list-v2.py] that returns: 1
    when no argument is given and no folder is found, 2 when the folder
    given is not a directory, 0 otherwise; [images.csv] is written only
    with code 0, and then exactly when some path was collected. *)
Theorem main_exit_codes :
  forall w argv code csv,
    LinkListV2.main w argv = Ok (LinkListV2.Exit code csv) ->
    (code = 1%Z /\ csv = None /\ argv = [] /\ scan_current_directory w = [])
    \/
    (code = 2%Z /\ csv = None /\
     exists f rest, argv = f :: rest /\ isdir w f = false)
    \/
    (code = 0%Z /\
     exists files,
       LinkListV2.collect_files w argv = inr files /\
       (csv = None <-> files = [])).
Proof.
  intros w argv code csv Hmain.
  destruct (LinkListV2.collect_files w argv) as [c|files] eqn:Hfiles.
  - unfold LinkListV2.main in Hmain. rewrite Hfiles in Hmain.
    injection Hmain as <- <-.
    destruct (collect_files_early_exit _ _ _ Hfiles) as [(-> & H)|(-> & H)];
      [left | right; left]; now repeat split.
  - right. right.
    destruct (LinkListV2.resolve_remote w) as [remote|e0] eqn:Hremote.
    + destruct (main_after_remote _ _ _ _ Hfiles Hremote)
        as [[-> E]|[Hne (rows & E & _)]];
        rewrite E in Hmain; injection Hmain as <- <-;
        (split; [reflexivity|]); eexists; (split; [reflexivity|]).
      * now split.
      * split; [discriminate | congruence].
    + unfold LinkListV2.main in Hmain. rewrite Hfiles, Hremote in Hmain.
      discriminate.
Qed.

Lemma main_exit_codes_witness :
  (0%Z = 1%Z /\
   Some [LinkListV2.header;
         ["Proj"; "M3"; "D.I Foo"; "./Proj/M3/1. D.I Foo/img.png"; ""]]
   = None /\
   ["Proj"] = [] /\ scan_current_directory proj_world_no_repository = [])
  \/
  (0%Z = 2%Z /\
   Some [LinkListV2.header;
         ["Proj"; "M3"; "D.I Foo"; "./Proj/M3/1. D.I Foo/img.png"; ""]]
   = None /\
   exists f rest,
     ["Proj"] = f :: rest /\ isdir proj_world_no_repository f = false)
  \/
  (0%Z = 0%Z /\
   exists files,
     LinkListV2.collect_files proj_world_no_repository ["Proj"] = inr files /\
     (Some [LinkListV2.header;
            ["Proj"; "M3"; "D.I Foo"; "./Proj/M3/1. D.I Foo/img.png"; ""]]
      = None <-> files = [])).
Proof.
  apply (main_exit_codes proj_world_no_repository ["Proj"]). reflexivity.
Defined.

(** X14. In the file a run of [link-list-v2.py] writes, the [url] column
    is the same for every row: when the remote was resolved to an owner, a
    repo and a branch that are all non-empty it is the raw URL of the path
    in the row's fourth column; when one of them is empty, or when the
    resolution raised [ValueError], it is empty. *)
Theorem main_url_column :
  forall w argv code csv,
    LinkListV2.main w argv = Ok (LinkListV2.Exit code (Some csv)) ->
    (forall owner repo branch,
       Common.get_git_info w = Ok (owner, repo, branch) ->
       Forall
         (fun row =>
            nth 4 row "" =
            if Py.truthy owner && Py.truthy repo && Py.truthy branch
            then LinkListV2.make_github_url owner repo branch (nth 3 row "")
            else "")
         (tl csv)) /\
    (Common.get_git_info w = Raise ValueError ->
     Forall (fun row => nth 4 row "" = "") (tl csv)).
Proof.
  intros w argv code csv Hmain. split.
  - intros owner repo branch Hgit.
    assert (LinkListV2.resolve_remote w = Ok (Some (owner, repo, branch)))
      as Hremote by (unfold LinkListV2.resolve_remote; now rewrite Hgit).
    destruct (main_rows_of_remote _ _ _ _ _ Hremote Hmain) as [files Hrows].
    now destruct (rows_of_files _ _ _ Hrows) as (_ & _ & Hurl).
  - intros Hgit.
    assert (LinkListV2.resolve_remote w = Ok None)
      as Hremote by (unfold LinkListV2.resolve_remote; now rewrite Hgit).
    destruct (main_rows_of_remote _ _ _ _ _ Hremote Hmain) as [files Hrows].
    now destruct (rows_of_files _ _ _ Hrows) as (_ & _ & Hurl).
Qed.

Lemma main_url_column_witness :
  (forall owner repo branch,
     Common.get_git_info proj_world = Ok (owner, repo, branch) ->
     Forall
       (fun row =>
          nth 4 row "" =
          if Py.truthy owner && Py.truthy repo && Py.truthy branch
          then LinkListV2.make_github_url owner repo branch (nth 3 row "")
          else "")
       (tl [LinkListV2.header;
            ["Proj"; "M3"; "D.I Foo"; "./Proj/M3/1. D.I Foo/img.png";
             "https://raw.githubusercontent.com/o/r/refs/heads/main/./Proj/M3/1.%20D.I%20Foo/img.png"]])) /\
  (Common.get_git_info proj_world = Raise ValueError ->
   Forall (fun row => nth 4 row "" = "")
     (tl [LinkListV2.header;
          ["Proj"; "M3"; "D.I Foo"; "./Proj/M3/1. D.I Foo/img.png";
           "https://raw.githubusercontent.com/o/r/refs/heads/main/./Proj/M3/1.%20D.I%20Foo/img.png"]])).
Proof.
  apply (main_url_column proj_world ["Proj"] 0%Z). reflexivity.
Defined.

(** ** The run of [link-list-new.py] *)

Section NewRun.

(** Whatever [get_git_info] raises, other than [ValueError], goes
    through the inner [try]. *)
Lemma new_resolve_remote_passes (w : world) (e : exn) :
  Common.get_git_info w = Raise e -> e <> ValueError ->
  LinkListNewRun.resolve_remote w = Raise e.
Proof.
  unfold LinkListNewRun.resolve_remote. intros -> Hne.
  destruct e; congruence.
Qed.

Lemma new_row_of_total (remote : option (string * string * string))
    (pth : string) :
  exists row,
    LinkListNewRun.row_of remote pth = Ok row /\
    length row = 5 /\ nth 3 row "" = "./" ++ pth /\
    nth 4 row "" =
    match remote with
    | Some (owner, repo, branch) =>
        if Py.truthy owner && Py.truthy repo && Py.truthy branch
        then LinkListNew.make_github_url owner repo branch pth
        else ""
    | None => ""
    end.
Proof.
  unfold LinkListNewRun.row_of.
  destruct (row_from_path_subunit pth) as (d & -> & _).
  cbn [bind]. eexists. split; [reflexivity|]. now repeat split.
Qed.

Lemma new_write_rows_complete (remote : option (string * string * string))
    (files : list string) :
  exists rows,
    LinkListNewRun.write_rows remote files = (rows, None) /\
    Forall2 (fun pth row => LinkListNewRun.row_of remote pth = Ok row)
      files rows.
Proof.
  induction files as [|pth files (rows & E & Hrows)].
  - exists []. now split.
  - destruct (new_row_of_total remote pth) as (row & Er & _).
    exists (row :: rows). split.
    + cbn [LinkListNewRun.write_rows]. now rewrite Er, E.
    + now constructor.
Qed.

End NewRun.

(** X15. In [link-list-new.py], once the folders are scanned, an
    exception that [get_git_info] raises, other than [ValueError], ends
    the run with exit code 3 before anything is written: so does the
    [FileNotFoundError] of a missing [git], on which [link-list-v2.py]
    aborts.  And no turn of the loop can fail by what it computes:
    whatever the path and the remote, it gives a row of five columns. *)
Theorem new_main_exit_three :
  forall w argv files,
    LinkListNewRun.collect_files w argv = inr files ->
    (forall e,
       Common.get_git_info w = Raise e -> e <> ValueError ->
       LinkListNewRun.main w argv = LinkListV2.Exit 3%Z None) /\
    (git_remote_origin_url w = NoExecutable ->
     LinkListNewRun.main w argv = LinkListV2.Exit 3%Z None) /\
    (forall remote pth,
       exists row,
         LinkListNewRun.row_of remote pth = Ok row /\ length row = 5).
Proof.
  intros w argv files Hfiles.
  assert (forall e,
             Common.get_git_info w = Raise e -> e <> ValueError ->
             LinkListNewRun.main w argv = LinkListV2.Exit 3%Z None) as Hexit.
  { intros e Hgit Hne. unfold LinkListNewRun.main.
    now rewrite Hfiles, (new_resolve_remote_passes _ _ Hgit Hne). }
  split; [exact Hexit|]. split.
  - intros Hgit. apply (Hexit FileNotFoundError); [|discriminate].
    now apply get_git_info_no_executable.
  - intros remote pth.
    destruct (new_row_of_total remote pth) as (row & Er & H5 & _).
    now exists row.
Qed.

Lemma new_main_exit_three_witness :
  LinkListNewRun.main proj_world_without_git ["Proj"]
  = LinkListV2.Exit 3%Z None.
Proof.
  apply (proj1 (proj2 (new_main_exit_three proj_world_without_git ["Proj"]
                         ["Proj/M3/1. D.I Foo/img.png"] eq_refl))).
  reflexivity.
Defined.

(** X16. When a run of [link-list-new.py] writes [images.csv], it exits
    with code 0 and the file holds the header and one row of five columns
    per collected path, in order.  The fourth column of a row is ["./"]
    followed by the path, while its [url], when the remote was resolved to
    a non-empty owner, repo and branch, is the blob URL of the path without
    that ["./"]. *)
Theorem new_main_rows :
  forall w argv code csv,
    LinkListNewRun.main w argv = LinkListV2.Exit code (Some csv) ->
    code = 0%Z /\
    exists files rows,
      LinkListNewRun.collect_files w argv = inr files /\
      csv = LinkListNewRun.header :: rows /\
      Forall2
        (fun pth row =>
           length row = 5 /\ nth 3 row "" = "./" ++ pth /\
           forall owner repo branch,
             Common.get_git_info w = Ok (owner, repo, branch) ->
             nth 4 row "" =
             if Py.truthy owner && Py.truthy repo && Py.truthy branch
             then LinkListNew.make_github_url owner repo branch pth
             else "")
        files rows.
Proof.
  intros w argv code csv. unfold LinkListNewRun.main.
  destruct (LinkListNewRun.collect_files w argv) as [c|files] eqn:Hfiles;
    [discriminate|].
  destruct (LinkListNewRun.resolve_remote w) as [remote|e] eqn:Hremote;
    [|discriminate].
  destruct files as [|f files]; [discriminate|].
  destruct (new_write_rows_complete remote (f :: files))
    as (rows & -> & Hrows).
  intros [= <- <-]. split; [reflexivity|].
  exists (f :: files), rows. split; [reflexivity|]. split; [reflexivity|].
  revert Hrows. apply Forall2_impl. intros pth row Hrow.
  destruct (new_row_of_total remote pth) as (row' & Er & H5 & H3 & H4).
  rewrite Er in Hrow. injection Hrow as <-.
  split; [exact H5|]. split; [exact H3|].
  intros owner repo branch Hgit.
  unfold LinkListNewRun.resolve_remote in Hremote. rewrite Hgit in Hremote.
  injection Hremote as <-. exact H4.
Qed.

Lemma new_main_rows_witness :
  0%Z = 0%Z /\
  exists files rows,
    LinkListNewRun.collect_files proj_world ["Proj"] = inr files /\
    [LinkListNewRun.header;
     ["Proj"; "M3"; "D.I Foo"; "./Proj/M3/1. D.I Foo/img.png";
      "https://github.com/o/r/blob/main/Proj/M3/1.%20D.I%20Foo/img.png"]]
    = LinkListNewRun.header :: rows /\
    Forall2
      (fun pth row =>
         length row = 5 /\ nth 3 row "" = "./" ++ pth /\
         forall owner repo branch,
           Common.get_git_info proj_world = Ok (owner, repo, branch) ->
           nth 4 row "" =
           if Py.truthy owner && Py.truthy repo && Py.truthy branch
           then LinkListNew.make_github_url owner repo branch pth
           else "")
      files rows.
Proof.
  apply (new_main_rows proj_world ["Proj"]). reflexivity.
Defined.

(** ** The run of [link-list.py] *)

Section OldRun.

Lemma old_resolve_remote_passes (w : world) (e : exn) :
  Common.get_git_info w = Raise e -> e <> ValueError ->
  LinkListRun.resolve_remote w = Raise e.
Proof.
  unfold LinkListRun.resolve_remote. intros -> Hne.
  destruct e; congruence.
Qed.

Lemma old_row_of_total (os : platform)
    (remote : option (string * string * string)) (pth : string) :
  exists folders filename,
    os_segments os pth = (folders ++ [filename])%list /\
    LinkListRun.row_of os remote pth =
    Ok [nth 0 folders ""; nth 1 folders "";
        Py.join (LinkList.os_sep os) (skipn 2 folders); filename;
        match remote with
        | Some (owner, repo, branch) =>
            if Py.truthy owner && Py.truthy repo && Py.truthy branch
            then LinkList.make_github_url owner repo branch pth
            else ""
        | None => ""
        end].
Proof.
  destruct (os_segments_snoc os pth) as (folders & filename & E).
  exists folders, filename. split; [exact E|].
  unfold LinkListRun.row_of. now rewrite (three_levels_row _ _ _ _ E).
Qed.

Lemma old_write_rows_total (os : platform)
    (remote : option (string * string * string)) (files : list string) :
  exists rows,
    LinkListRun.write_rows os remote files = Ok rows /\
    Forall2 (fun pth row => LinkListRun.row_of os remote pth = Ok row)
      files rows.
Proof.
  induction files as [|pth files (rows & E & Hrows)].
  - exists []. now split.
  - destruct (old_row_of_total os remote pth) as (fs & fn & _ & Er).
    eexists (_ :: rows). split.
    + cbn [LinkListRun.write_rows]. rewrite Er, E. reflexivity.
    + now constructor.
Qed.

(** Encoding the root before the path is built does not change the
    URL. *)
Lemma encode_path_rooted (root f : string) :
  Common.encode_path (LinkListRun.rooted (Py.replace " " "%20" root) f) =
  Common.encode_path (root ++ "/" ++ f).
Proof.
  unfold LinkListRun.rooted.
  change (String.concat "" [Py.replace " " "%20" root; "/"; f])
    with (Py.replace " " "%20" root ++ "/" ++ f).
  rewrite !encode_path_app, <- encode_path_is_replace.
  now rewrite (encode_path_fixed _ (encode_path_space_free root)).
Qed.

Lemma posix_segments_rooted (root f : string) :
  Py.char_in "/" root = false ->
  os_segments Posix (LinkListRun.rooted root f)
  = root :: os_segments Posix f.
Proof.
  intros Hroot. unfold LinkListRun.rooted, os_segments, LinkList.os_sep.
  change (String.concat "" [root; "/"; f]) with (root ++ String "/" f).
  cbn [LinkList.os_sep_char].
  now rewrite split_app_sep, (split_char_free "/" root Hroot).
Qed.

(** The rows of the file, when [main] returns with the file written. *)
Lemma old_main_written (os : platform) (w : world) (f : string)
    (rest : list string) (code : Z) (csv : list (list string)) :
  LinkListRun.main os w (f :: rest)
  = Ok (LinkListV2.Exit code (Some csv)) ->
  exists remote,
    LinkListRun.resolve_remote w = Ok remote /\
    Forall2
      (fun img row =>
         LinkListRun.row_of os remote
           (LinkListRun.rooted (Py.replace " " "%20" f) img) = Ok row)
      (list_images w f) (tl csv).
Proof.
  unfold LinkListRun.main.
  destruct (negb (isdir w f)); [discriminate|].
  destruct (LinkListRun.resolve_remote w) as [remote|e]; [|discriminate].
  cbv zeta.
  assert (forall l rows,
             Forall2
               (fun pth row => LinkListRun.row_of os remote pth = Ok row)
               (map (LinkListRun.rooted (Py.replace " " "%20" f)) l) rows ->
             Forall2
               (fun img row =>
                  LinkListRun.row_of os remote
                    (LinkListRun.rooted (Py.replace " " "%20" f) img)
                  = Ok row) l rows) as Hconv.
  { induction l as [|img imgs IH]; intros rows Hrows; cbn [map] in Hrows;
      inversion Hrows as [|pth row pths rows' Hrow Hrest]; subst.
    - constructor.
    - constructor; [exact Hrow | now apply IH]. }
  destruct (old_write_rows_total os remote
              (map (LinkListRun.rooted (Py.replace " " "%20" f))
                 (list_images w f))) as (rows & E & Hrows).
  apply Hconv in Hrows.
  destruct (list_images w f) as [|img imgs]; [discriminate|].
  cbn [map] in *. rewrite E. cbn [bind]. intros [= <- <-].
  exists remote. now split.
Qed.

End OldRun.

(** X17. When a run of [link-list.py] returns, its exit code is 1 when
    no argument was given, 2 when the folder is not a directory, and
    otherwise 3 or 0; [images.csv] is written only with code 0, and then
    exactly when the scan found an image.  An exception that
    [get_git_info] raises, other than [ValueError] (the
    [FileNotFoundError] of a missing [git], for one), gives the exit code
    3, before anything is written. *)
Theorem old_main_exit_codes :
  forall os w argv,
    (forall code csv,
       LinkListRun.main os w argv = Ok (LinkListV2.Exit code csv) ->
       (code = 1%Z /\ csv = None /\ argv = []) \/
       (code = 2%Z /\ csv = None /\
        exists f rest, argv = f :: rest /\ isdir w f = false) \/
       (code = 3%Z /\ csv = None /\
        exists f rest, argv = f :: rest /\ isdir w f = true) \/
       (code = 0%Z /\
        exists f rest,
          argv = f :: rest /\ isdir w f = true /\
          (csv = None <-> list_images w f = []))) /\
    (forall f rest e,
       argv = f :: rest -> isdir w f = true ->
       Common.get_git_info w = Raise e -> e <> ValueError ->
       LinkListRun.main os w argv = Ok (LinkListV2.Exit 3%Z None)).
Proof.
  intros os w argv. split.
  - intros code csv. unfold LinkListRun.main.
    destruct argv as [|f rest].
    + intros [= <- <-]. left. now repeat split.
    + destruct (isdir w f) eqn:Hdir; cbn [negb].
      * destruct (LinkListRun.resolve_remote w) as [remote|e] eqn:Hremote.
        -- cbv zeta.
           destruct (list_images w f) as [|img imgs] eqn:Himgs; cbn [map].
           ++ intros [= <- <-]. do 3 right.
              split; [reflexivity|]. exists f, rest. now repeat split.
           ++ destruct (old_write_rows_total os remote
                          (LinkListRun.rooted (Py.replace " " "%20" f) img
                           :: map (LinkListRun.rooted
                                     (Py.replace " " "%20" f)) imgs))
                as (rows & -> & _).
              cbn [bind]. intros [= <- <-]. do 3 right.
              split; [reflexivity|]. exists f, rest.
              repeat split; try assumption; intros; congruence.
        -- intros [= <- <-]. right. right. left.
           split; [reflexivity|]. split; [reflexivity|]. now exists f, rest.
      * intros [= <- <-]. right. left.
        split; [reflexivity|]. split; [reflexivity|]. now exists f, rest.
  - intros f rest e -> Hdir Hgit Hne. unfold LinkListRun.main.
    now rewrite Hdir, (old_resolve_remote_passes _ _ Hgit Hne).
Qed.

Lemma old_main_exit_codes_witness :
  LinkListRun.main Posix proj_world_without_git ["Proj"]
  = Ok (LinkListV2.Exit 3%Z None).
Proof.
  apply (proj2 (old_main_exit_codes Posix proj_world_without_git ["Proj"])
           "Proj" [] FileNotFoundError);
    [reflexivity | reflexivity | reflexivity | discriminate].
Defined.

(** X18. In the file a run of [link-list.py] writes, with a remote
    resolved to a non-empty owner, repo and branch, every row has five
    columns and its [url] is the raw URL of [<folder>/<image>] for the
    folder as it was given: encoding the folder before the path is built
    does not encode it twice.  The folder columns depend on the platform.
    On POSIX the first column shows the folder with its spaces already
    replaced by ["%20"] (for a folder name without ['/']).  On Windows,
    for a folder and an image written without a backslash, the path is
    one single part: the three folder columns are empty and the fourth
    holds the whole path. *)
Theorem old_main_rows :
  forall os w f rest owner repo branch code csv,
    LinkListRun.main os w (f :: rest)
    = Ok (LinkListV2.Exit code (Some csv)) ->
    Common.get_git_info w = Ok (owner, repo, branch) ->
    Py.truthy owner && Py.truthy repo && Py.truthy branch = true ->
    Forall2
      (fun img row =>
         length row = 5 /\
         nth 4 row "" =
         LinkList.make_github_url owner repo branch (f ++ "/" ++ img) /\
         (os = Posix -> Py.char_in "/" f = false ->
          nth 0 row "" = Py.replace " " "%20" f) /\
         (os = Windows ->
          Py.char_in (LinkList.os_sep_char Windows) f = false ->
          Py.char_in (LinkList.os_sep_char Windows) img = false ->
          firstn 4 row =
          [""; ""; ""; Py.replace " " "%20" f ++ "/" ++ img]))
      (list_images w f) (tl csv).
Proof.
  intros os w f rest owner repo branch code csv Hmain Hgit Htruthy.
  destruct (old_main_written _ _ _ _ _ _ Hmain) as (remote & Hremote & Hrows).
  unfold LinkListRun.resolve_remote in Hremote. rewrite Hgit in Hremote.
  injection Hremote as <-.
  set (root := Py.replace " " "%20" f) in *.
  revert Hrows. apply Forall2_impl. intros img row Hrow.
  destruct (old_row_of_total os (Some (owner, repo, branch))
              (LinkListRun.rooted root img))
    as (folders & filename & Eseg & Er).
  rewrite Er in Hrow. injection Hrow as <-.
  split; [reflexivity|]. split; [|split].
  - cbn [nth]. rewrite Htruthy.
    unfold LinkList.make_github_url, Common.make_github_url_raw.
    unfold root. now rewrite encode_path_rooted.
  - intros -> Hfree. cbn [nth].
    assert (Py.char_in "/" root = false) as Hroot
        by (apply replace_space_char_free; [reflexivity | exact Hfree]).
    rewrite (posix_segments_rooted _ _ Hroot) in Eseg.
    destruct (os_segments_snoc Posix img) as (fs & fn & Eimg).
    rewrite Eimg in Eseg.
    change (root :: (fs ++ [fn]))%list with ((root :: fs) ++ [fn])%list
      in Eseg.
    apply app_inj_tail in Eseg as [<- _]. reflexivity.
  - intros -> Hf Himg.
    assert (Py.char_in (LinkList.os_sep_char Windows)
              (LinkListRun.rooted root img) = false) as Hfree.
    { unfold LinkListRun.rooted.
      change (String.concat "" [root; "/"; img]) with (root ++ "/" ++ img).
      rewrite !char_in_app, Himg.
      unfold root. rewrite replace_space_char_free by (reflexivity || assumption).
      reflexivity. }
    unfold os_segments, LinkList.os_sep in Eseg.
    rewrite (split_char_free _ _ Hfree) in Eseg.
    change [LinkListRun.rooted root img]
      with ([] ++ [LinkListRun.rooted root img])%list in Eseg.
    apply app_inj_tail in Eseg as [<- <-]. reflexivity.
Qed.

Lemma old_main_rows_witness :
  Forall2
    (fun img row =>
       length row = 5 /\
       nth 4 row "" =
       LinkList.make_github_url "o" "r" "main" ("Proj" ++ "/" ++ img) /\
       (Windows = Posix -> Py.char_in "/" "Proj" = false ->
        nth 0 row "" = Py.replace " " "%20" "Proj") /\
       (Windows = Windows ->
        Py.char_in (LinkList.os_sep_char Windows) "Proj" = false ->
        Py.char_in (LinkList.os_sep_char Windows) img = false ->
        firstn 4 row =
        [""; ""; ""; Py.replace " " "%20" "Proj" ++ "/" ++ img]))
    (list_images proj_world "Proj")
    (tl [LinkListRun.header;
         [""; ""; ""; "Proj/M3/1. D.I Foo/img.png";
          "https://raw.githubusercontent.com/o/r/refs/heads/main/Proj/M3/1.%20D.I%20Foo/img.png"]]).
Proof.
  apply (old_main_rows Windows proj_world "Proj" [] "o" "r" "main" 0%Z);
    reflexivity.
Defined.

(** ** URLs *)

(** X19. A URL built by either builder holds no space as soon as the
    owner, the repo and the branch hold none, whatever the path. *)
Theorem urls_hold_no_space :
  forall owner repo branch path,
    Py.char_in " " owner = false ->
    Py.char_in " " repo = false ->
    Py.char_in " " branch = false ->
    Py.char_in " " (Common.make_github_url_raw owner repo branch path) = false
    /\
    Py.char_in " " (LinkListNew.make_github_url owner repo branch path) = false.
Proof.
  intros owner repo branch path Ho Hr Hb.
  pose proof (encode_path_space_free path) as Hp.
  unfold Common.make_github_url_raw, LinkListNew.make_github_url.
  cbv zeta. split.
  - change (String.concat ""
              ["https://raw.githubusercontent.com/"; owner; "/"; repo;
               "/refs/heads/"; branch; "/"; Common.encode_path path])
      with ("https://raw.githubusercontent.com/"
              ++ owner ++ "/" ++ repo ++ "/refs/heads/" ++ branch ++ "/"
              ++ Common.encode_path path).
    rewrite !char_in_app, Ho, Hr, Hb, Hp. reflexivity.
  - change (String.concat ""
              ["https://github.com/"; owner; "/"; repo; "/blob/"; branch;
               "/"; Common.encode_path path])
      with ("https://github.com/"
              ++ owner ++ "/" ++ repo ++ "/blob/" ++ branch ++ "/"
              ++ Common.encode_path path).
    rewrite !char_in_app, Ho, Hr, Hb, Hp. reflexivity.
Qed.

Lemma urls_hold_no_space_witness :
  Py.char_in " "
    (Common.make_github_url_raw "o" "r" "main" "Proj/M3/1. D.I Foo/a b.png")
  = false /\
  Py.char_in " "
    (LinkListNew.make_github_url "o" "r" "main" "Proj/M3/1. D.I Foo/a b.png")
  = false.
Proof.
  apply (urls_hold_no_space "o" "r" "main" "Proj/M3/1. D.I Foo/a b.png");
    reflexivity.
Defined.

(** ** The two sub-unit rules side by side *)

Section TwoRules.

Lemma append_inv_length (a a' b b' : string) :
  String.length a = String.length a' ->
  a ++ b = a' ++ b' -> a = a' /\ b = b'.
Proof.
  revert a'. induction a as [|x a IH]; intros [|x' a'] Hlen E;
    try discriminate Hlen.
  - now split.
  - cbn [append] in E. injection E as -> E.
    cbn [String.length] in Hlen. injection Hlen as Hlen.
    destruct (IH _ Hlen E) as [-> ->]. now split.
Qed.

Lemma first_occurrence_unique (sub s p r p' r' : string) :
  first_occurrence sub s p r -> first_occurrence sub s p' r' ->
  p = p' /\ r = r'.
Proof.
  intros [E Hmin] [E' Hmin'].
  pose proof (Hmin _ _ E') as H1. pose proof (Hmin' _ _ E) as H2.
  rewrite E in E'.
  destruct (append_inv_length p p' _ _ ltac:(lia) E') as [-> E2].
  destruct (append_inv_length sub sub _ _ eq_refl E2) as [_ ->].
  now split.
Qed.

(** An occurrence is the first one when what stands before it holds no
    first character of the substring. *)
Lemma first_occurrence_char_free (c : ascii) (sub p r : string) :
  Py.char_in c p = false ->
  first_occurrence (String c sub) (p ++ String c sub ++ r) p r.
Proof.
  intros Hp. split; [reflexivity|].
  revert Hp. induction p as [|x p IH]; intros Hp p' r' E; [cbn; lia|].
  cbn [Py.char_in] in Hp. apply orb_false_iff in Hp as [Hx Hp].
  destruct p' as [|x' p'].
  - cbn [append] in E. injection E as -> _.
    rewrite Ascii.eqb_refl in Hx. discriminate.
  - cbn [append] in E. injection E as _ E.
    cbn [String.length]. apply le_n_S. exact (IH Hp p' r' E).
Qed.

Lemma digits_char_free (c : ascii) (d : string) :
  Py.isdigit c = false -> all_chars Py.isdigit d = true ->
  Py.char_in c d = false.
Proof.
  intros Hc. induction d as [|x d IH]; [reflexivity|].
  cbn [all_chars Py.char_in]. intros H.
  apply andb_true_iff in H as [Hx Hd]. rewrite (IH Hd), orb_false_r.
  apply Ascii.eqb_neq. congruence.
Qed.

Lemma rstrip_by_length (p : ascii -> bool) (y : string) :
  String.length (Py.rstrip_by p y) <= String.length y.
Proof.
  destruct (rstrip_by_spec p y) as [(w & E & _) _].
  rewrite E at 2. rewrite append_length. lia.
Qed.

End TwoRules.

(** X20. On a folder name [<digits>. <x>D.I<r>], where [x] holds no
    ['D'], the numeric-prefix rule returns [<x>D.I<r>] and the
    marker-search rule returns ["D.I"] followed by [r] without its
    trailing whitespace.  The two rules agree exactly when nothing stands
    between the numbering and the marker and [r] has no trailing
    whitespace; on ["1. M3 D.I Citasuk Banten Paket I"], the example in
    the comment of [parse_path_info], the numeric-prefix rule keeps the
    ["M3 "]. *)
Theorem subunit_rules_compared :
  forall a b f d x r,
    d <> "" ->
    all_chars Py.isdigit d = true ->
    Py.char_in "D" x = false ->
    Py.char_in "/" (d ++ ". " ++ x ++ "D.I" ++ r) = false ->
    LinkListV2.clean_folder_name (d ++ ". " ++ x ++ "D.I" ++ r)
    = Ok (x ++ "D.I" ++ r) /\
    LinkListNew.di_name_of [a; b; d ++ ". " ++ x ++ "D.I" ++ r; f]
    = Ok ("D.I" ++ Py.rstrip_by Py.isspace r) /\
    (x ++ "D.I" ++ r = "D.I" ++ Py.rstrip_by Py.isspace r <->
     x = "" /\ Py.rstrip_by Py.isspace r = r).
Proof.
  intros a b f d x r Hd Hdigits Hx Hfree.
  set (seg := d ++ ". " ++ x ++ "D.I" ++ r) in *.
  split; [|split].
  - assert (first_occurrence ". " seg d (x ++ "D.I" ++ r)) as Hfirst.
    { apply (first_occurrence_char_free "." " " d).
      now apply digits_char_free. }
    destruct (clean_folder_name_numbered seg) as (p & r' & Hfirst' & ->).
    + destruct d as [|c d']; [congruence|].
      cbn [all_chars] in Hdigits. apply andb_true_iff in Hdigits as [Hc _].
      now exists c, (d' ++ ". " ++ x ++ "D.I" ++ r).
    + now exists d, (x ++ "D.I" ++ r).
    + now destruct (first_occurrence_unique _ _ _ _ _ _ Hfirst Hfirst')
        as [_ ->].
  - assert (seg = (d ++ ". " ++ x) ++ "D.I" ++ r) as Eseg
        by (unfold seg; now rewrite !append_assoc).
    assert (first_occurrence "D.I" seg (d ++ ". " ++ x) r) as Hfirst.
    { rewrite Eseg. apply (first_occurrence_char_free "D" ".I").
      rewrite !char_in_app, Hx, (digits_char_free "D" d eq_refl Hdigits).
      reflexivity. }
    destruct (di_name_of_found [a; b; seg; f] seg eq_refl Hfree)
      as (p & r' & Hfirst' & ->).
    + apply occurs_contains. now exists (d ++ ". " ++ x), r.
    + destruct (first_occurrence_unique _ _ _ _ _ _ Hfirst Hfirst')
        as [_ <-].
      cbn [append]. rewrite strip_keeps_head by reflexivity.
      now rewrite !rstrip_by_keeps_head by reflexivity.
  - split.
    + intros E. pose proof (rstrip_by_length Py.isspace r) as Hle.
      assert (String.length x = 0) as Hx0.
      { apply (f_equal String.length) in E.
        rewrite !append_length in E. cbn [String.length] in E. lia. }
      destruct x; [|discriminate Hx0]. split; [reflexivity|].
      cbn [append] in E. now injection E.
    + intros [-> E]. now rewrite E.
Qed.

Lemma subunit_rules_compared_witness :
  LinkListV2.clean_folder_name
    ("1" ++ ". " ++ "M3 " ++ "D.I" ++ " Citasuk Banten Paket I")
  = Ok ("M3 " ++ "D.I" ++ " Citasuk Banten Paket I") /\
  LinkListNew.di_name_of
    ["Oplah"; "M3";
     "1" ++ ". " ++ "M3 " ++ "D.I" ++ " Citasuk Banten Paket I"; "a.png"]
  = Ok ("D.I" ++ Py.rstrip_by Py.isspace " Citasuk Banten Paket I") /\
  ("M3 " ++ "D.I" ++ " Citasuk Banten Paket I"
   = "D.I" ++ Py.rstrip_by Py.isspace " Citasuk Banten Paket I" <->
   "M3 " = "" /\
   Py.rstrip_by Py.isspace " Citasuk Banten Paket I"
   = " Citasuk Banten Paket I").
Proof.
  apply (subunit_rules_compared "Oplah" "M3" "a.png" "1" "M3 "
           " Citasuk Banten Paket I");
    [discriminate | reflexivity | reflexivity | reflexivity].
Defined.

(** ** The scripts side by side *)

(** X21. For one folder and one image, [link-list-v2.py] and
    [link-list-new.py] never raise and write the same project and the same
    displayName, [./<folder>/<image>]: the first strips the ["./"] it has put
    in front, the second adds it to the name.  Their period columns agree
    when the path has at least 3 segments. *)
Theorem scripts_agree_on_project_and_name :
  forall folder f,
    exists a b d b' d',
      LinkListV2.parse_path_info (LinkListV2.dot_path folder f)
      = Ok (a, b, d, LinkListV2.dot_path folder f) /\
      LinkListNew.row_from_path (LinkListNewRun.slash_path folder f)
      = Ok [a; b'; d'; LinkListV2.dot_path folder f] /\
      (3 <= length (segments (LinkListNewRun.slash_path folder f)) ->
       b = b').
Proof.
  intros folder f.
  rewrite parse_path_info_unfold, row_from_path_unfold.
  unfold effective_parts, segments, LinkListV2.dot_path,
    LinkListNewRun.slash_path.
  change (String.concat "" ["./"; folder; "/"; f])
    with ("./" ++ (folder ++ "/" ++ f)).
  change (String.concat "" [folder; "/"; f]) with (folder ++ "/" ++ f).
  rewrite split_dot_slash. cbn [String.eqb Ascii.eqb Bool.eqb].
  pose proof (split_app_sep_length folder f) as Hlen.
  destruct (row_from_path_subunit (folder ++ "/" ++ f)) as (d' & Hrow & _).
  rewrite row_from_path_unfold in Hrow. unfold segments in Hrow.
  destruct (LinkListNew.di_name_of (Py.split "/" None (folder ++ "/" ++ f)))
    as [d0|e]; [|discriminate]. cbn [bind] in Hrow |- *.
  destruct (Py.split "/" None (folder ++ "/" ++ f))
    as [|a [|b [|c [|x l]]]]; cbn [length] in Hlen; try lia.
  - exists a, "", "", b, d0. repeat split. cbn [length]. lia.
  - exists a, b, "", b, d0. now repeat split.
  - destruct (clean_folder_name_total c) as [r ->].
    exists a, b, r, b, d0. now repeat split.
Qed.
